(** * slack-github-action: the payload resolution and dispatch engine

    A shallow embedding of [src/slack-send.js] (the exported async function
    [slackSend]) and the properties of its specification.

    Conventions of the embedding.
    - A JavaScript string is a [string]; each [ascii] stands for one code
      unit, so only code units below 256 are represented.
    - A JavaScript number is kept abstract: the program only converts numbers
      to strings and to booleans, which is what the class [JSNumber] offers.
    - A JavaScript object is the list of its own enumerable properties in
      the order [Object.keys] reports them.
    - The external collaborators (process environment, action inputs, file
      system, template renderer, JSON parser, Slack web client, HTTP client,
      clock, promise scheduler, and the built-in upper-casing of strings)
      are the fields of a record [World]; the run of [slackSend] in a world
      is the list of the effects it performs. *)

From Stdlib Require Import String Ascii List Bool Arith NArith ZArith Lia.
From Stdlib Require Import Permutation DecimalString.
Import ListNotations.
Open Scope string_scope.

(* ===================================================================== *)
(** ** Strings *)
(* ===================================================================== *)

Module Str.

(** ToBoolean of a string: the empty string is the only falsy one. *)
Definition truthy (s : string) : bool :=
  match s with "" => false | String _ _ => true end.

(** [a || b] on strings. *)
Definition or (a b : string) : string := if truthy a then a else b.

(** [s.split(sep)] for a one-character separator. *)
Fixpoint split (sep : ascii) (s : string) : list string :=
  match s with
  | "" => [""]
  | String c rest =>
      if Ascii.eqb c sep then "" :: split sep rest
      else match split sep rest with
           | seg :: segs => String c seg :: segs
           | [] => [String c ""]
           end
  end.

(** WhiteSpace and LineTerminator code units below 256: TAB, LF, VT, FF,
    CR, SP and NBSP. *)
Definition isWhiteSpace (c : ascii) : bool :=
  let n := nat_of_ascii c in
  (((9 <=? n) && (n <=? 13)) || (n =? 32) || (n =? 160))%nat.

Fixpoint trimStart (s : string) : string :=
  match s with
  | "" => ""
  | String c rest => if isWhiteSpace c then trimStart rest else s
  end.

Fixpoint trimEnd (s : string) : string :=
  match s with
  | "" => ""
  | String c rest =>
      match trimEnd rest with
      | "" => if isWhiteSpace c then "" else String c ""
      | kept => String c kept
      end
  end.

(** [s.trim()]. *)
Definition trim (s : string) : string := trimEnd (trimStart s).

(** An ASCII code unit: one below 128. *)
Definition is_ascii (c : ascii) : bool := (nat_of_ascii c <? 128)%nat.

(** Upper-casing of an ASCII code unit: the letters a-z move down by 32,
    every other one is kept. *)
Definition upper (c : ascii) : ascii :=
  let n := nat_of_ascii c in
  if ((97 <=? n) && (n <=? 122))%nat then ascii_of_nat (n - 32) else c.

(** [s.toUpperCase()] for a string [s] of ASCII code units. For other
    strings the built-in is not defined here (the upper-case form of a code
    unit may lie above 255 or be several code units): a world supplies it. *)
Fixpoint toUpperCaseASCII (s : string) : string :=
  match s with
  | "" => ""
  | String c rest => String (upper c) (toUpperCaseASCII rest)
  end.

(** [prefix p s = true] when [s] starts with [p]. *)
Fixpoint startsWith (p s : string) : bool :=
  match p, s with
  | "", _ => true
  | String a p', String b s' => Ascii.eqb a b && startsWith p' s'
  | String _ _, "" => false
  end.

(** [s.replaceAll(pat, rep)] for a non-empty literal pattern. The scan is
    left to right and matches do not overlap: after a match the remaining
    [length pat - 1] code units of the match are skipped. *)
Fixpoint replaceAll_from (pat rep s : string) (skip : nat) : string :=
  match s with
  | "" => ""
  | String c rest =>
      match skip with
      | S k => replaceAll_from pat rep rest k
      | O =>
          if startsWith pat s
          then rep ++ replaceAll_from pat rep rest (String.length pat - 1)
          else String c (replaceAll_from pat rep rest 0)
      end
  end.

Definition replaceAll (pat rep s : string) : string :=
  replaceAll_from pat rep s 0.

(** The code units of a string, each as a one-character string
    ([s[i]] for every index [i]). *)
Fixpoint chars (s : string) : list string :=
  match s with
  | "" => []
  | String c rest => String c "" :: chars rest
  end.

(** Decimal numeral of a natural number (an array index as a key). *)
Definition of_nat (n : nat) : string :=
  NilEmpty.string_of_uint (Nat.to_uint n).

(** [arr.join(sep)] on strings. *)
Definition join (sep : string) (l : list string) : string :=
  String.concat sep l.

(** Every code unit of [s] satisfies [p]. *)
Fixpoint all (p : ascii -> bool) (s : string) : bool :=
  match s with
  | "" => true
  | String c rest => p c && all p rest
  end.

(** The number of occurrences of the code unit [c] in [s]. *)
Fixpoint count (c : ascii) (s : string) : nat :=
  match s with
  | "" => 0
  | String c' rest => (if Ascii.eqb c' c then 1 else 0) + count c rest
  end.

(** The same letter, whatever its case, for the letters a-z. *)
Definition same_letter (c d : ascii) : bool :=
  let fold (n : nat) := if ((97 <=? n) && (n <=? 122))%nat then n - 32 else n in
  (fold (nat_of_ascii c) =? fold (nat_of_ascii d))%nat.

(** Equality of two strings up to the case of the letters a-z. *)
Fixpoint equal_ignoring_case (s t : string) : bool :=
  match s, t with
  | "", "" => true
  | String c s', String d t' => same_letter c d && equal_ignoring_case s' t'
  | _, _ => false
  end.

(** An upper-case letter or the underscore: what the names of the webhook
    types are made of. *)
Definition plain_upper (d : ascii) : bool :=
  let n := nat_of_ascii d in
  (((65 <=? n) && (n <=? 90)) || (n =? 95))%nat.

(** How [upper c] compares with a [plain_upper] code unit [d]: it is [d]
    exactly when [c] and [d] are the same letter. *)
Definition upper_agrees (c d : ascii) : bool :=
  implb (plain_upper d) (Bool.eqb (Ascii.eqb (upper c) d) (same_letter c d)).

Definition for_both (f : bool -> bool) : bool := f true && f false.

(** [p] on every code unit, by enumeration. *)
Definition for_all_ascii (p : ascii -> bool) : bool :=
  for_both (fun b0 => for_both (fun b1 => for_both (fun b2 => for_both (fun b3 =>
  for_both (fun b4 => for_both (fun b5 => for_both (fun b6 => for_both (fun b7 =>
    p (Ascii b0 b1 b2 b3 b4 b5 b6 b7))))))))).

End Str.

(* ===================================================================== *)
(** ** JavaScript values *)
(* ===================================================================== *)

(** What the program observes of a number. *)
Class JSNumber (number : Type) : Type := {
  Number_toString : number -> string;   (* Number::toString, radix 10 *)
  Number_toBoolean : number -> bool     (* false for +0, -0 and NaN *)
}.

(** Integers in the safe range print as their decimal numeral. *)
#[export] Instance Z_JSNumber : JSNumber Z := {
  Number_toString z := NilZero.string_of_int (Z.to_int z);
  Number_toBoolean z := negb (Z.eqb z 0)
}.

Section Values.

Context {number : Type} {JSN : JSNumber number}.

(** The values [JSON.parse] can return. An object is the list of its own
    properties in enumeration order. *)
#[warnings="-register-all"]
Inductive value : Type :=
| VNull
| VBool (b : bool)
| VNum (n : number)
| VStr (s : string)
| VArr (elems : list value)
| VObj (props : list (string * value)).

Definition obj : Type := list (string * value).

(** ToBoolean. *)
Definition ToBoolean (v : value) : bool :=
  match v with
  | VNull => false
  | VBool b => b
  | VNum n => Number_toBoolean n
  | VStr s => Str.truthy s
  | VArr _ | VObj _ => true
  end.

(** ToString, as a template literal applies it. An array joins the
    strings of its elements with a comma, null elements giving the empty
    string; an ordinary object gives [[object Object]]. *)
Fixpoint ToString (v : value) : string :=
  match v with
  | VNull => "null"
  | VBool true => "true"
  | VBool false => "false"
  | VNum n => Number_toString n
  | VStr s => s
  | VArr elems =>
      Str.join ","
        (map (fun e => match e with VNull => "" | _ => ToString e end) elems)
  | VObj _ => "[object Object]"
  end.

(** *** Objects as ordered property lists *)

(** An array index is the canonical numeral of an integer below 2^32-1;
    such keys are enumerated first, in ascending numeric order. *)
Definition array_index (k : string) : option N :=
  match NilEmpty.uint_of_string k with
  | Some u =>
      let n := N.of_uint u in
      if String.eqb (NilEmpty.string_of_uint (N.to_uint n)) k
         && (n <? 4294967295)%N
      then Some n else None
  | None => None
  end.

(** [o[k]] for an own property. *)
Fixpoint obj_get (k : string) (o : obj) : option value :=
  match o with
  | [] => None
  | (k', v) :: o' => if String.eqb k k' then Some v else obj_get k o'
  end.

Definition obj_has (k : string) (o : obj) : bool :=
  match obj_get k o with Some _ => true | None => false end.

Definition keys (o : obj) : list string := map fst o.

(** Assignment to an existing property keeps its place. *)
Fixpoint obj_replace (k : string) (v : value) (o : obj) : obj :=
  match o with
  | [] => []
  | (k', v') :: o' =>
      if String.eqb k k' then (k, v) :: o' else (k', v') :: obj_replace k v o'
  end.

(** A new array-index key goes before the first key that is not an array
    index or is a larger one. *)
Fixpoint obj_insert_index (n : N) (k : string) (v : value) (o : obj) : obj :=
  match o with
  | [] => [(k, v)]
  | (k', v') :: o' =>
      match array_index k' with
      | Some m =>
          if (m <? n)%N then (k', v') :: obj_insert_index n k v o'
          else (k, v) :: o
      | None => (k, v) :: o
      end
  end.

(** [o[k] = v]. *)
Definition obj_set (k : string) (v : value) (o : obj) : obj :=
  if obj_has k o then obj_replace k v o
  else match array_index k with
       | Some n => obj_insert_index n k v o
       | None => (o ++ [(k, v)])%list
       end.

(** The properties [0], [1], ... of an array or of a string. *)
Fixpoint indexed_from (i : nat) (l : list value) : obj :=
  match l with
  | [] => []
  | x :: l' => (Str.of_nat i, x) :: indexed_from (S i) l'
  end.

(** Own enumerable properties of a value, as object spread and
    [Object.keys] see them: the properties of an object, the elements of
    an array, the code units of a string, nothing for the others. *)
Definition own_entries (v : value) : obj :=
  match v with
  | VObj props => props
  | VArr elems => indexed_from 0 elems
  | VStr s => indexed_from 0 (map VStr (Str.chars s))
  | VNull | VBool _ | VNum _ => []
  end.

(** Assigning a list of properties, one after the other. *)
Definition assign_all (entries o : obj) : obj :=
  fold_left (fun o kv => obj_set (fst kv) (snd kv) o) entries o.

(** [{ ...base, ...v }]: the properties of [v] are assigned in order onto
    the properties written before the spread. *)
Definition spread (base : obj) (v : value) : obj :=
  assign_all (own_entries v) base.

(** [v || {}]. *)
Definition or_empty (v : value) : value :=
  if ToBoolean v then v else VObj [].

(** *** Flattening *)

(** [type === '[object Object]' || type === '[object Array]'] *)
Definition isobject (v : value) : bool :=
  match v with
  | VArr _ | VObj _ => true
  | _ => false
  end.

(** [Object.keys(value).length] as a condition. *)
Definition has_keys (v : value) : bool :=
  match own_entries v with [] => false | _ :: _ => true end.

(** [prev ? prev + delimiter + key : key], with the default delimiter. *)
Definition newKey (prev key : string) : string :=
  if Str.truthy prev then prev ++ "." ++ key else key.

(** Modelled from the spec: [flatten] is the function exported by the
    package [flat], a dependency whose code is not among the sources. The
    spec describes it as converting a nested structure into a single-level
    mapping keyed by dot-joined paths. The definition follows the package's
    function with its default options: [step] walks the own properties of
    [object] in order; a property that is a non-empty object or array is
    walked in turn under the joined key, any other value is assigned to
    [output] under the joined key. *)
Fixpoint step (object : value) (prev : string) (output : obj) : obj :=
  match object with
  | VObj props =>
      (fix each (ps : list (string * value)) (output : obj) : obj :=
         match ps with
         | [] => output
         | (key, x) :: ps' =>
             each ps'
               (if isobject x && has_keys x
                then step x (newKey prev key) output
                else obj_set (newKey prev key) x output)
         end) props output
  | VArr elems =>
      (fix each (i : nat) (es : list value) (output : obj) : obj :=
         match es with
         | [] => output
         | x :: es' =>
             each (S i) es'
               (if isobject x && has_keys x
                then step x (newKey prev (Str.of_nat i)) output
                else obj_set (newKey prev (Str.of_nat i)) x output)
         end) 0 elems output
  | VStr s =>
      fold_left (fun out kv => obj_set (newKey prev (fst kv)) (snd kv) out)
        (own_entries (VStr s)) output
  | VNull | VBool _ | VNum _ => output
  end.

(** Modelled from the spec: [flatten(target)] of the package [flat];
    [None] stands for the TypeError of [Object.keys(null)]. *)
Definition flatten (target : value) : option obj :=
  match target with
  | VNull => None
  | _ => Some (step target "" [])
  end.

(** Lines 117-119: every key of the flat payload is assigned the string
    of its value. *)
Definition stringify_values (flatPayload : obj) : obj :=
  fold_left
    (fun fp key =>
       match obj_get key fp with
       | Some v => obj_set key (VStr (ToString v)) fp
       | None => fp
       end)
    (keys flatPayload) flatPayload.

(** *** Paths, to state what flattening computes *)

(** The paths from [v] to its leaves with the leaf each one reaches, in the
    order of the walk. A leaf is a property whose value is not a non-empty
    object or array. *)
Fixpoint leaves (v : value) : list (list string * value) :=
  match v with
  | VObj props =>
      (fix each (ps : list (string * value)) : list (list string * value) :=
         match ps with
         | [] => []
         | (key, x) :: ps' =>
             ((if isobject x && has_keys x
               then map (fun pl => (key :: fst pl, snd pl)) (leaves x)
               else [([key], x)]) ++ each ps')%list
         end) props
  | VArr elems =>
      (fix each (i : nat) (es : list value) : list (list string * value) :=
         match es with
         | [] => []
         | x :: es' =>
             ((if isobject x && has_keys x
               then map (fun pl => (Str.of_nat i :: fst pl, snd pl)) (leaves x)
               else [([Str.of_nat i], x)]) ++ each (S i) es')%list
         end) 0 elems
  | VStr s => map (fun kv => ([fst kv], snd kv)) (own_entries (VStr s))
  | VNull | VBool _ | VNum _ => []
  end.

(** The key under which the leaf at [path] is stored, below the key [prev]. *)
Definition flat_key (prev : string) (path : list string) : string :=
  fold_left newKey path prev.

(** The properties the walk assigns: the key of each leaf and the leaf. *)
Definition flat_entries (prev : string) (v : value) : obj :=
  map (fun pl => (flat_key prev (fst pl), snd pl)) (leaves v).

(** A path without the empty keys it starts with. *)
Fixpoint drop_empty (path : list string) : list string :=
  match path with
  | "" :: path' => drop_empty path'
  | _ => path
  end.

(** The value is a string. *)
Definition is_string (v : value) : bool :=
  match v with
  | VStr _ => true
  | _ => false
  end.

End Values.

Arguments value : clear implicits.
Arguments obj : clear implicits.

(* ===================================================================== *)
(** ** Effects *)
(* ===================================================================== *)

(** A thrown [Error] object; the message is all the program passes on. *)
Inductive exn : Type := Error (message : string).

(** A call of a collaborator that returns or throws. *)
Inductive result (A : Type) : Type :=
| Ok (a : A)
| Raise (e : exn).
Arguments Ok {A} a.
Arguments Raise {A} e.

(** The response of a chat method: the fields [slackSend] reads. *)
Record WebResponse : Type := {
  resp_ok : bool;
  resp_ts : string;
  resp_thread_ts : option string;
  resp_channel : string
}.

(** How the promise of a chat method settles. A fulfilled promise carries
    the response, [None] for a falsy value such as [undefined]. *)
Inductive settled : Type :=
| Fulfilled (response : option WebResponse)
| Rejected (reason : exn).

Record Agent : Type := { agent_proxy : string }.

(** The options object given to [axios.post]: both fields are unset in
    [{}]. *)
Record AxiosOpts : Type := {
  httpsAgent : option Agent;
  proxy : option bool
}.

Section Effects.

Context {number : Type} {JSN : JSNumber number}.

(** The error [axios.post] rejects with: [toJSON] when the error has the
    method (its result), [response] when the error carries a response
    (its [data]), and the message. *)
Record AxiosError : Type := {
  err_toJSON : option (value number);
  err_response : option (value number);
  err_message : string
}.

Inductive log_arg : Type :=
| LStr (s : string)
| LErr (e : exn)
| LVal (v : value number).

(** The argument of [core.setFailed]. *)
Inductive failure : Type :=
| FailError (error : exn)
| FailData (data : value number)
| FailMessage (message : string).

(** What a run does to the outside. *)
Inductive event : Type :=
| ConsoleLog (args : list log_arg)
| ConsoleError (args : list log_arg)
| ReadFile (path : string)
| ChatUpdate (args : obj number)
| ChatPostMessage (args : obj number)
| AxiosPost (url : string) (body : value number) (opts : AxiosOpts)
| SetOutput (name : string) (v : string)
| SetFailed (detail : failure).

(** How a block of statements completes. *)
Inductive completion (A : Type) : Type :=
| Normal (a : A)
| Throw (e : exn)
| Return.

(** A block of statements: the events it performs and its completion. *)
Definition Action (A : Type) : Type := (list event * completion A)%type.

Definition ret {A} (a : A) : Action A := ([], Normal A a).

Definition bind {A B} (m : Action A) (k : A -> Action B) : Action B :=
  match m with
  | (t, Normal _ a) => let (t', c) := k a in ((t ++ t')%list, c)
  | (t, Throw _ e) => (t, Throw B e)
  | (t, Return _) => (t, Return B)
  end.

Definition emit (ev : event) : Action unit := ([ev], Normal unit tt).

Definition throw {A} (e : exn) : Action A := ([], Throw A e).

(** [return;] *)
Definition return_ {A} : Action A := ([], Return A).

(** [try { m } catch (error) { handler error }] *)
Definition try_catch {A} (m : Action A) (handler : exn -> Action A) : Action A :=
  match m with
  | (t, Throw _ e) => let (t', c) := handler e in ((t ++ t')%list, c)
  | _ => m
  end.

Definition lift {A} (r : result A) : Action A :=
  match r with
  | Ok a => ret a
  | Raise e => throw e
  end.

Definition when (b : bool) (m : Action unit) : Action unit :=
  if b then m else ret tt.

Fixpoint emit_all (evs : list event) : Action unit :=
  match evs with
  | [] => ret tt
  | ev :: evs' => bind (emit ev) (fun _ => emit_all evs')
  end.

End Effects.

Arguments AxiosError : clear implicits.
Arguments log_arg : clear implicits.
Arguments failure : clear implicits.
Arguments event : clear implicits.
Arguments Action : clear implicits.
Arguments Normal {A} a.
Arguments Throw {A} e.
Arguments Return {A}.

Declare Scope action_scope.
Delimit Scope action_scope with action.
Notation "x <- m ;; k" := (bind m (fun x => k))
  (at level 61, m at next level, right associativity) : action_scope.
Notation "m ;; k" := (bind m (fun _ => k))
  (at level 61, right associativity) : action_scope.

(* ===================================================================== *)
(** ** The world of one invocation *)
(* ===================================================================== *)

(** The client [createWebClient] returns: its two chat methods, each
    giving the way the returned promise settles. *)
Record WebClient {number : Type} : Type := {
  chat_update : obj number -> settled;
  chat_postMessage : obj number -> settled
}.
Arguments WebClient : clear implicits.

Record World {number : Type} : Type := {
  (** [process.env.NAME] *)
  env : string -> option string;
  (** [core.getInput(name)] *)
  getInput : string -> string;
  (** [core.getBooleanInput(name)] *)
  getBooleanInput : string -> result bool;
  (** [fs.readFile(path.resolve(p), 'utf-8')] *)
  readFile : string -> result string;
  (** [markup.up(template, { github: github.context, env: process.env })] *)
  markup_up : string -> result string;
  (** [JSON.parse(text)], [None] for a SyntaxError *)
  JSON_parse : string -> option (value number);
  (** [JSON.stringify(v)] *)
  JSON_stringify : value number -> string;
  (** [github.context.payload], an object *)
  context_payload : obj number;
  (** [createWebClient(botToken, httpsProxy)] of [./web-client], which is
      not among the sources: taken as it comes. *)
  createWebClient : string -> string -> result (WebClient number);
  (** the order in which the promises of the fan-out settle, see
      [settle_order] *)
  settle_picks : list nat;
  (** [parseURL(u)]: the scheme of the URL record, [None] for [null] *)
  parseURL : string -> option string;
  (** [new HttpsProxyAgent(proxy)] *)
  HttpsProxyAgent : string -> result Agent;
  (** [axios.post(url, body, opts)]: [None] when the promise is fulfilled,
      the error when it is rejected *)
  axios_post : string -> value number -> AxiosOpts -> option (AxiosError number);
  (** [(new Date()).toTimeString()] at the end of the run *)
  toTimeString : string;
  (** [s.toUpperCase()], the built-in. It is not computed here: outside
      the ASCII range the upper-case form of a code unit can be several
      code units (U+00DF gives SS) or a code unit above 255 (U+00FF gives
      U+0178), which a [string] does not hold and for which the world gives
      a stand-in; the run only compares the result with the name
      WORKFLOW_TRIGGER. *)
  toUpperCase : string -> string
}.
Arguments World : clear implicits.

(* ===================================================================== *)
(** ** slack-send.js *)
(* ===================================================================== *)

Module SLACK_WEBHOOK_TYPES.
Definition WORKFLOW_TRIGGER : string := "WORKFLOW_TRIGGER".
Definition INCOMING_WEBHOOK : string := "INCOMING_WEBHOOK".
End SLACK_WEBHOOK_TYPES.

Module Msg.
Definition no_credentials : string :=
  "Need to provide at least one botToken or webhookUrl".
Definition bad_file (payloadFilePath : string) : string :=
  "The payload-file-path may be incorrect. Failed to load the file: "
    ++ payloadFilePath.
Definition invalid_json_log : string := "passed in payload was invalid JSON".
Definition invalid_json : string := "Need to provide valid JSON payload".
Definition no_channel : string :=
  "Channel ID is required to run this action. An empty one has been provided".
Definition no_content_log : string :=
  "Missing slack-message or payload! Did not send a message via chat.postMessage with botToken".
Definition no_content : string :=
  "Missing message content, please input a valid payload or message to send. No Message has been send.".
Definition default_payload_log : string :=
  "no custom payload was passed in, using default payload that triggered the GitHub Action".
Definition proxy_failed_log : string :=
  "failed to configure https proxy agent for http proxy. Using default axios configuration".
Definition post_failed_log : string :=
  "axios post failed, double check the payload being sent includes the keys Slack expects".
Definition attempted_log (json : string) : string :=
  "Attempted to POST payload: " ++ json.
(** the TypeError of [null.scheme] and of [Object.keys(null)] *)
Definition null_scheme : string :=
  "Cannot read properties of null (reading 'scheme')".
Definition null_to_object : string :=
  "Cannot convert undefined or null to object".
End Msg.

Section Program.

Context {number : Type} {JSN : JSNumber number}.
Local Open Scope action_scope.

(** [x === undefined || x.length <= 0] *)
Definition absent (x : option string) : bool :=
  match x with
  | None => true
  | Some s => (String.length s <=? 0)%nat
  end.

(** [typeof x !== 'undefined' && x.length > 0] *)
Definition present (x : option string) : bool :=
  match x with
  | None => false
  | Some s => (0 <? String.length s)%nat
  end.

(** The string of a variable known to be defined. *)
Definition defined (x : option string) : string :=
  match x with
  | Some s => s
  | None => ""
  end.

(** [x || dflt] for an environment variable. *)
Definition env_or (x : option string) (dflt : string) : string :=
  match x with
  | Some s => Str.or s dflt
  | None => dflt
  end.

(** Lines 20-26. *)
Definition webhookType (w : World number) : string :=
  match env w "SLACK_WEBHOOK_TYPE" with
  | Some t =>
      if Str.truthy t then toUpperCase w t
      else SLACK_WEBHOOK_TYPES.WORKFLOW_TRIGGER
  | None => SLACK_WEBHOOK_TYPES.WORKFLOW_TRIGGER
  end.

(** Lines 41-54: the payload file is read when a path is given and no
    inline payload is. *)
Definition loadPayloadFile (w : World number) (payload payloadFilePath : string)
    (payloadFilePathParsed : bool) : Action number string :=
  if Str.truthy payloadFilePath && negb (Str.truthy payload) then
    try_catch
      (emit (ReadFile payloadFilePath) ;;
       payload <- lift (readFile w payloadFilePath) ;;
       if payloadFilePathParsed then
         let payloadString := Str.replaceAll "${{" "{{" payload in
         lift (markup_up w payloadString)
       else ret payload)
      (fun error =>
         emit (ConsoleError [LErr error]) ;;
         throw (Error (Msg.bad_file payloadFilePath)))
  else ret payload.

(** Lines 56-65: a truthy payload text is parsed; a falsy one stays the
    empty string. *)
Definition parsePayload (w : World number) (payload : string) : Action number (value number) :=
  if Str.truthy payload then
    match JSON_parse w payload with
    | Some parsed => ret parsed
    | None =>
        emit (ConsoleError [LStr Msg.invalid_json_log]) ;;
        throw (Error Msg.invalid_json)
    end
  else ret (VStr payload).

(** Lines 32-65. *)
Definition resolvePayload (w : World number) : Action number (value number) :=
  let payload := getInput w "payload" in
  let payloadFilePath := getInput w "payload-file-path" in
  payloadFilePathParsed <- lift (getBooleanInput w "payload-file-path-parsed") ;;
  payload <- loadPayloadFile w payload payloadFilePath payloadFilePathParsed ;;
  parsePayload w payload.

(** *** Token transport *)

(** The argument of [web.chat.update] and of [web.chat.postMessage]. *)
Definition chatArguments (ts channelId message : string) (payload : value number) : obj number :=
  if Str.truthy ts then
    spread [("ts", VStr ts); ("channel", VStr (Str.trim channelId));
            ("text", VStr message)] (or_empty payload)
  else
    spread [("channel", VStr (Str.trim channelId)); ("text", VStr message)]
      (or_empty payload).

(** Lines 81-87 up to the [await]: the call one channel entry makes. *)
Definition chatCall (ts message : string) (payload : value number) (channelId : string) : event number :=
  if Str.truthy ts then ChatUpdate (chatArguments ts channelId message payload)
  else ChatPostMessage (chatArguments ts channelId message payload).

(** The promise the call returns. *)
Definition chatPromise (web : WebClient number) (call : event number) : settled :=
  match call with
  | ChatUpdate args => chat_update web args
  | ChatPostMessage args => chat_postMessage web args
  | _ => Fulfilled None
  end.

(** The promises settle in some order, which [picks] encodes: its entry
    for a promise is the number of promises issued after it that settle
    before it (capped by how many there are). Every list of picks gives an
    order and every order is given by some picks. *)
Fixpoint settle_order {A} (picks : list nat) (pending : list A) : list A :=
  match pending with
  | [] => []
  | p :: pending' =>
      let later := settle_order (tl picks) pending' in
      let k := hd 0 picks in
      (firstn k later ++ p :: skipn k later)%list
  end.

(** The callbacks resume in the order their promises settle; each
    fulfilled one assigns [webResponse]. [Promise.all] rejects with the
    first rejection, and what the remaining callbacks assign afterwards is
    not read any more. *)
Fixpoint await_all (settling : list settled) (webResponse : option WebResponse)
    : Action number (option WebResponse) :=
  match settling with
  | [] => ret webResponse
  | Fulfilled response :: settling' => await_all settling' response
  | Rejected reason :: _ => throw reason
  end.

(** Lines 80-88: the callbacks run up to their [await] one after the
    other, in the order of the entries, and so issue all the calls; then
    the promises settle. *)
Definition fanOut (w : World number) (web : WebClient number) (ts message : string)
    (payload : value number) (channelIds : string) : Action number (option WebResponse) :=
  let calls := map (chatCall ts message payload) (Str.split "," channelIds) in
  emit_all calls ;;
  await_all (settle_order (settle_picks w) (map (chatPromise web) calls)) None.

(** Lines 91-98. *)
Definition reportResponse (webResponse : option WebResponse) : Action number unit :=
  match webResponse with
  | Some r =>
      if resp_ok r then
        emit (SetOutput "ts" (resp_ts r)) ;;
        let thread_ts :=
          match resp_thread_ts r with
          | Some t => if Str.truthy t then t else resp_ts r
          | None => resp_ts r
          end in
        emit (SetOutput "thread_ts" thread_ts) ;;
        emit (SetOutput "channel_id" (resp_channel r))
      else ret tt
  | None => ret tt
  end.

(** Lines 68-102. *)
Definition sendWithToken (w : World number) (botToken : string) (payload : value number)
    : Action number unit :=
  let message := Str.or (getInput w "slack-message") "" in
  let channelIds := Str.or (getInput w "channel-id") "" in
  let httpsProxy := env_or (env w "HTTPS_PROXY") (env_or (env w "https_proxy") "") in
  web <- lift (createWebClient w botToken httpsProxy) ;;
  when (String.length channelIds <=? 0)%nat
    (emit (ConsoleLog [LStr Msg.no_channel]) ;;
     throw (Error Msg.no_channel)) ;;
  if (0 <? String.length message)%nat || ToBoolean payload then
    let ts := getInput w "update-ts" in
    webResponse <- fanOut w web ts message payload channelIds ;;
    reportResponse webResponse
  else
    emit (ConsoleLog
            [LStr Msg.no_content_log;
             LVal (VObj (spread [("channel", VStr channelIds);
                                 ("text", VStr message)] payload))]) ;;
    throw (Error Msg.no_content).

(** *** Webhook transport *)

(** Lines 104-109. *)
Definition defaultPayload (w : World number) (payload : value number) : Action number (value number) :=
  if negb (ToBoolean payload) then
    emit (ConsoleLog [LStr Msg.default_payload_log]) ;;
    ret (VObj (context_payload w))
  else ret payload.

(** Lines 111-122. *)
Definition shapePayload (webhookType : string) (payload : value number) : Action number (value number) :=
  if String.eqb webhookType SLACK_WEBHOOK_TYPES.WORKFLOW_TRIGGER then
    match flatten payload with
    | Some flatPayload => ret (VObj (stringify_values flatPayload))
    | None => throw (Error Msg.null_to_object)
    end
  else ret payload.

(** [parseURL(u).scheme] *)
Definition scheme (w : World number) (u : string) : Action number string :=
  match parseURL w u with
  | Some s => ret s
  | None => throw (Error Msg.null_scheme)
  end.

Definition noOpts : AxiosOpts := {| httpsAgent := None; proxy := None |}.

(** Lines 124-138. Nothing is assigned to [axiosOpts] before the last
    expression that can throw, so the handler leaves [{}]. *)
Definition configureProxy (w : World number) (webhookUrl : string) : Action number AxiosOpts :=
  try_catch
    (urlScheme <- scheme w webhookUrl ;;
     if String.eqb urlScheme "https" then
       let httpsProxy :=
         env_or (env w "HTTPS_PROXY") (env_or (env w "https_proxy") "") in
       if Str.truthy httpsProxy then
         proxyScheme <- scheme w httpsProxy ;;
         if String.eqb proxyScheme "http" then
           httpsProxyAgent <- lift (HttpsProxyAgent w httpsProxy) ;;
           ret {| httpsAgent := Some httpsProxyAgent; proxy := Some false |}
         else ret noOpts
       else ret noOpts
     else ret noOpts)
    (fun err =>
       emit (ConsoleLog [LStr Msg.proxy_failed_log; LErr err]) ;;
       ret noOpts).

(** Lines 140-155. *)
Definition post (w : World number) (webhookUrl : string) (payload : value number)
    (axiosOpts : AxiosOpts) : Action number unit :=
  emit (AxiosPost webhookUrl payload axiosOpts) ;;
  match axios_post w webhookUrl payload axiosOpts with
  | None => ret tt
  | Some err =>
      emit (ConsoleLog [LStr Msg.post_failed_log]) ;;
      match err_toJSON err with
      | Some json => emit (ConsoleError [LStr (JSON_stringify w json)])
      | None => ret tt
      end ;;
      emit (ConsoleError [LStr (Msg.attempted_log (JSON_stringify w payload))]) ;;
      match err_response err with
      | Some data => emit (SetFailed (FailData data))
      | None => emit (SetFailed (FailMessage (err_message err)))
      end ;;
      return_
  end.

(** Lines 104-156. *)
Definition sendWithWebhook (w : World number) (webhookUrl : string) (payload : value number)
    : Action number unit :=
  payload <- defaultPayload w payload ;;
  payload <- shapePayload (webhookType w) payload ;;
  axiosOpts <- configureProxy w webhookUrl ;;
  post w webhookUrl payload axiosOpts.

(** *** The exported function *)

(** Lines 67-156: the transport is chosen, the token first. *)
Definition deliver (w : World number) (payload : value number) : Action number unit :=
  let botToken := env w "SLACK_BOT_TOKEN" in
  let webhookUrl := env w "SLACK_WEBHOOK_URL" in
  if present botToken then sendWithToken w (defined botToken) payload
  else if present webhookUrl then sendWithWebhook w (defined webhookUrl) payload
  else ret tt.

(** Lines 18-159, the body of the outer [try]. *)
Definition body (w : World number) : Action number unit :=
  let botToken := env w "SLACK_BOT_TOKEN" in
  let webhookUrl := env w "SLACK_WEBHOOK_URL" in
  when (absent botToken && absent webhookUrl)
    (throw (Error Msg.no_credentials)) ;;
  payload <- resolvePayload w ;;
  deliver w payload ;;
  emit (SetOutput "time" (toTimeString w)).

(** Lines 160-162: the handler of the outer [try]. *)
Definition setFailed (error : exn) : Action number unit :=
  emit (SetFailed (FailError error)).

(** *** Vocabulary for the properties *)

(** The run gets to the channel dispatcher of the token transport (line
    73): a bot token is present, the payload is resolved to [payload] with
    the events [t], and the client [web] is created. *)
Definition tokenTransport (w : World number) (t : list (event number))
    (payload : value number) (web : WebClient number) : Prop :=
  present (env w "SLACK_BOT_TOKEN") = true
  /\ resolvePayload w = (t, Normal payload)
  /\ createWebClient w (defined (env w "SLACK_BOT_TOKEN"))
       (env_or (env w "HTTPS_PROXY") (env_or (env w "https_proxy") ""))
     = Ok web.

(** A delivery operation: a chat call or a webhook POST. *)
Definition is_delivery (e : event number) : bool :=
  match e with
  | ChatUpdate _ | ChatPostMessage _ | AxiosPost _ _ _ => true
  | _ => false
  end.

(** One of the outputs that describe the message sent. *)
Definition is_message_output (e : event number) : bool :=
  match e with
  | SetOutput name _ =>
      String.eqb name "ts" || String.eqb name "thread_ts"
      || String.eqb name "channel_id"
  | _ => false
  end.

(** The run is marked failed. *)
Definition is_failure (e : event number) : bool :=
  match e with
  | SetFailed _ => true
  | _ => false
  end.

(** A webhook POST. *)
Definition is_post (e : event number) : bool :=
  match e with
  | AxiosPost _ _ _ => true
  | _ => false
  end.

(** A line written to the console. *)
Definition is_log (e : event number) : bool :=
  match e with
  | ConsoleLog _ | ConsoleError _ => true
  | _ => false
  end.

(** An event that stays on the machine: a console line or a file read. *)
Definition is_local (e : event number) : bool :=
  match e with
  | ConsoleLog _ | ConsoleError _ | ReadFile _ => true
  | _ => false
  end.

(** What the run reports to the action: an output or the failure. *)
Definition is_report (e : event number) : bool :=
  match e with
  | SetOutput _ _ | SetFailed _ => true
  | _ => false
  end.

(** What a failed POST reports: the body of the response when the error
    carries one, else the message of the error. *)
Definition postFailure (err : AxiosError number) : failure number :=
  match err_response err with
  | Some data => FailData data
  | None => FailMessage (err_message err)
  end.

(** [slackSend(core)]: the events of the run. *)
Definition slackSend (w : World number) : list (event number) :=
  fst (try_catch (body w) setFailed).

(** A call of a chat method. *)
Definition is_chat (e : event number) : bool :=
  match e with
  | ChatUpdate _ | ChatPostMessage _ => true
  | _ => false
  end.

(** A read of the payload file. *)
Definition is_read (e : event number) : bool :=
  match e with
  | ReadFile _ => true
  | _ => false
  end.

(** What ends a run: the time output or the failure. *)
Definition is_end (e : event number) : bool :=
  match e with
  | SetOutput name _ => String.eqb name "time"
  | SetFailed _ => true
  | _ => false
  end.

(** The proxy the clients are given: [HTTPS_PROXY], else [https_proxy]. *)
Definition httpsProxy (w : World number) : string :=
  env_or (env w "HTTPS_PROXY") (env_or (env w "https_proxy") "").

(** The payload the webhook transport shapes: the resolved one, or that of
    the event when the resolved one is falsy (lines 104-109). *)
Definition webhookSource (w : World number) (payload : value number) : value number :=
  if ToBoolean payload then payload else VObj (context_payload w).

(** The world [w] with the promises settling in another order. *)
Definition with_picks (w : World number) (picks : list nat) : World number :=
  {| env := env w; getInput := getInput w; getBooleanInput := getBooleanInput w;
     readFile := readFile w; markup_up := markup_up w;
     JSON_parse := JSON_parse w; JSON_stringify := JSON_stringify w;
     context_payload := context_payload w;
     createWebClient := createWebClient w; settle_picks := picks;
     parseURL := parseURL w; HttpsProxyAgent := HttpsProxyAgent w;
     axios_post := axios_post w; toTimeString := toTimeString w;
     toUpperCase := toUpperCase w |}.

(** The world [w] with other action inputs: what [core.getInput] and
    [core.getBooleanInput] return. *)
Definition with_inputs (w : World number) (inputs : string -> string)
    (flags : string -> result bool) : World number :=
  {| env := env w; getInput := inputs; getBooleanInput := flags;
     readFile := readFile w; markup_up := markup_up w;
     JSON_parse := JSON_parse w; JSON_stringify := JSON_stringify w;
     context_payload := context_payload w;
     createWebClient := createWebClient w; settle_picks := settle_picks w;
     parseURL := parseURL w; HttpsProxyAgent := HttpsProxyAgent w;
     axios_post := axios_post w; toTimeString := toTimeString w;
     toUpperCase := toUpperCase w |}.

(** The events of a run from the delivery on: those of the delivery, then
    the time output when it completes, the failure when it throws, nothing
    when it returns (lines 154, 158-161). *)
Definition finish (w : World number) (delivery : Action number unit)
    : list (event number) :=
  match snd delivery with
  | Normal _ => fst delivery ++ [SetOutput "time" (toTimeString w)]
  | Throw e => fst delivery ++ [SetFailed (FailError e)]
  | Return => fst delivery
  end%list.

End Program.


(* ===================================================================== *)
(** ** Concrete worlds *)
(* ===================================================================== *)

(** Worlds over integer numbers, built from tables, on which the program is
    run in the examples below. *)
Module Sample.

Definition lookup (table : list (string * string)) (name : string) : option string :=
  match find (fun kv => String.eqb (fst kv) name) table with
  | Some kv => Some (snd kv)
  | None => None
  end.

(** [core.getBooleanInput] of the actions toolkit: the YAML core-schema
    spellings of the two booleans, a TypeError for anything else. *)
Definition booleanInput (inputs : list (string * string)) (name : string) : result bool :=
  let val := defined (lookup inputs name) in
  if existsb (String.eqb val) ["true"; "True"; "TRUE"] then Ok true
  else if existsb (String.eqb val) ["false"; "False"; "FALSE"] then Ok false
  else Raise (Error ("Input does not meet YAML 1.2 Core Schema specification: " ++ name)).

Definition quote : string := String (ascii_of_nat 34) "".

(** The JSON text of the object with the one string property [text: hi]. *)
Definition text_hi : string :=
  "{" ++ quote ++ "text" ++ quote ++ ":" ++ quote ++ "hi" ++ quote ++ "}".

Definition nested : value Z :=
  VObj [("a", VObj [("b", VNum 1%Z); ("c", VArr [VNum 2%Z; VNum 3%Z])])].

(** The texts the sample parser knows; every other text is a SyntaxError. *)
Definition parse (text : string) : option (value Z) :=
  if String.eqb text text_hi then Some (VObj [("text", VStr "hi")])
  else if String.eqb text "{}" then Some (VObj [])
  else if String.eqb text "[1]" then Some (VArr [VNum 1%Z])
  else if String.eqb text "null" then Some VNull
  else None.

(** A serializer for values whose strings need no escape. *)
Fixpoint stringify (v : value Z) : string :=
  match v with
  | VNull => "null"
  | VStr s => quote ++ s ++ quote
  | VArr elems => "[" ++ Str.join "," (map stringify elems) ++ "]"
  | VObj props =>
      "{" ++ Str.join ","
               (map (fun kv => quote ++ fst kv ++ quote ++ ":" ++ stringify (snd kv))
                  props) ++ "}"
  | v => ToString v
  end.

(** A client whose two methods settle as the tables say, by channel. *)
Definition client (replies : list (string * settled)) : WebClient Z :=
  let reply (args : obj Z) :=
    match obj_get "channel" args with
    | Some (VStr c) =>
        match find (fun kv => String.eqb (fst kv) c) replies with
        | Some kv => snd kv
        | None => Fulfilled None
        end
    | _ => Fulfilled None
    end in
  {| chat_update := reply; chat_postMessage := reply |}.

Definition sent (channel ts : string) : settled :=
  Fulfilled (Some {| resp_ok := true; resp_ts := ts; resp_thread_ts := None;
                     resp_channel := channel |}).

Definition refused (channel : string) : settled :=
  Fulfilled (Some {| resp_ok := false; resp_ts := ""; resp_thread_ts := None;
                     resp_channel := channel |}).

Definition world (vars inputs files : list (string * string))
    (replies : list (string * settled)) (picks : list nat)
    (posted : option (AxiosError Z)) : World Z :=
  {| env := lookup vars;
     getInput := fun name => defined (lookup inputs name);
     getBooleanInput := booleanInput inputs;
     readFile := fun p =>
       match lookup files p with
       | Some text => Ok text
       | None => Raise (Error ("ENOENT: no such file or directory, open " ++ p))
       end;
     markup_up := fun template =>
       Ok (Str.replaceAll "{{ github.ref }}" "refs/heads/main" template);
     JSON_parse := parse;
     JSON_stringify := stringify;
     context_payload := [("ref", VStr "main")];
     createWebClient := fun _ _ => Ok (client replies);
     settle_picks := picks;
     parseURL := fun u =>
       if Str.startsWith "https://" u then Some "https"
       else if Str.startsWith "http://" u then Some "http"
       else None;
     HttpsProxyAgent := fun p => Ok {| agent_proxy := p |};
     axios_post := fun _ _ _ => posted;
     toTimeString := "12:00:00 GMT+0000 (Coordinated Universal Time)";
     toUpperCase := Str.toUpperCaseASCII |}.

Definition flag_off : list (string * string) := [("payload-file-path-parsed", "false")].
Definition flag_on : list (string * string) := [("payload-file-path-parsed", "true")].

(** No credentials at all. *)
Definition no_credentials : World Z :=
  world [("SLACK_BOT_TOKEN", "")] flag_off [] [] [] None.

(** Scenario A: an inline payload, a token, two channels. *)
Definition two_channels : World Z :=
  world [("SLACK_BOT_TOKEN", "xoxb-1")]
    (("payload", text_hi) :: ("channel-id", "C1, C2") :: flag_off)
    [] [("C1", sent "C1" "1.1"); ("C2", sent "C2" "2.2")] [1] None.

(** A token and a message, no channel. *)
Definition no_channel : World Z :=
  world [("SLACK_BOT_TOKEN", "xoxb-1")]
    (("slack-message", "hello") :: flag_off) [] [] [] None.

(** A token and a channel, nothing to send. *)
Definition no_content : World Z :=
  world [("SLACK_BOT_TOKEN", "xoxb-1")]
    (("channel-id", "C1") :: flag_off) [] [] [] None.

(** A token, a message, and a channel input that is a single comma. *)
Definition comma_channel : World Z :=
  world [("SLACK_BOT_TOKEN", "xoxb-1")]
    (("slack-message", "hello") :: ("channel-id", ", ") :: flag_off)
    [] [] [] None.


(** A webhook whose type override is written in mixed case. *)
Definition mixed_case_type : World Z :=
  world [("SLACK_WEBHOOK_URL", "https://hooks.slack.com/workflows/T0");
         ("SLACK_WEBHOOK_TYPE", "Workflow_Trigger")]
    flag_off [] [] [] None.

(** A token, a message, a channel whose post is answered with ok = false. *)
Definition refused_post : World Z :=
  world [("SLACK_BOT_TOKEN", "xoxb-1")]
    (("slack-message", "hello") :: ("channel-id", "C1") :: flag_off)
    [] [("C1", refused "C1")] [] None.

(** Scenario D: a webhook whose POST is answered with an error body. *)
Definition failed_post : World Z :=
  world [("SLACK_WEBHOOK_URL", "https://hooks.slack.com/workflows/T0")]
    flag_off [] [] []
    (Some {| err_toJSON := None;
             err_response := Some (VStr "invalid_payload");
             err_message := "Request failed with status code 400" |}).

(** Scenario B: a webhook, no payload given, the default type. *)
Definition event_payload : World Z :=
  world [("SLACK_WEBHOOK_URL", "https://hooks.slack.com/workflows/T0")]
    flag_off [] [] [] None.

(** A webhook with an unknown type override. *)
Definition foo_type : World Z :=
  world [("SLACK_WEBHOOK_URL", "https://hooks.slack.com/services/T0");
         ("SLACK_WEBHOOK_TYPE", "foo")]
    flag_off [] [] [] None.

(** A token, a message, a channel and a template file that is empty. *)
Definition empty_file : World Z :=
  world [("SLACK_BOT_TOKEN", "xoxb-1")]
    (("slack-message", "hello") :: ("channel-id", "C1")
       :: ("payload-file-path", "payload.json") :: flag_on)
    [("payload.json", "")] [("C1", sent "C1" "1.1")] [] None.

(** The same with a template file that is not JSON once rendered. *)
Definition bad_file : World Z :=
  world [("SLACK_BOT_TOKEN", "xoxb-1")]
    (("slack-message", "hello") :: ("channel-id", "C1")
       :: ("payload-file-path", "payload.json") :: flag_on)
    [("payload.json", "${{ github.ref }}")] [("C1", sent "C1" "1.1")] [] None.

(** The world [w] with another JSON parser. *)
Definition with_parse (w : World Z) (parser : string -> option (value Z)) : World Z :=
  {| env := env w; getInput := getInput w; getBooleanInput := getBooleanInput w;
     readFile := readFile w; markup_up := markup_up w;
     JSON_parse := parser; JSON_stringify := JSON_stringify w;
     context_payload := context_payload w;
     createWebClient := createWebClient w; settle_picks := settle_picks w;
     parseURL := parseURL w; HttpsProxyAgent := HttpsProxyAgent w;
     axios_post := axios_post w; toTimeString := toTimeString w;
     toUpperCase := toUpperCase w |}.

(** The world [w] in which no client can be created. *)
Definition without_client (w : World Z) (reason : exn) : World Z :=
  {| env := env w; getInput := getInput w; getBooleanInput := getBooleanInput w;
     readFile := readFile w; markup_up := markup_up w;
     JSON_parse := JSON_parse w; JSON_stringify := JSON_stringify w;
     context_payload := context_payload w;
     createWebClient := fun _ _ => Raise reason; settle_picks := settle_picks w;
     parseURL := parseURL w; HttpsProxyAgent := HttpsProxyAgent w;
     axios_post := axios_post w; toTimeString := toTimeString w;
     toUpperCase := toUpperCase w |}.

(** A token and a webhook URL together. *)
Definition both_credentials : World Z :=
  world [("SLACK_BOT_TOKEN", "xoxb-1");
         ("SLACK_WEBHOOK_URL", "https://hooks.slack.com/workflows/T0")]
    (("slack-message", "hello") :: ("channel-id", "C1") :: flag_off)
    [] [("C1", sent "C1" "1.1")] [] None.

(** An inline payload and a payload file together. *)
Definition inline_and_file : World Z :=
  world [("SLACK_BOT_TOKEN", "xoxb-1")]
    (("payload", text_hi) :: ("payload-file-path", "payload.json")
       :: ("channel-id", "C1") :: flag_off)
    [("payload.json", "{}")] [("C1", sent "C1" "1.1")] [] None.

(** A payload file that does not exist. *)
Definition missing_file : World Z :=
  world [("SLACK_BOT_TOKEN", "xoxb-1")]
    (("payload-file-path", "missing.json") :: ("slack-message", "hello")
       :: ("channel-id", "C1") :: flag_off)
    [] [("C1", sent "C1" "1.1")] [] None.

(** An inline payload that is not JSON. *)
Definition invalid_inline : World Z :=
  world [("SLACK_BOT_TOKEN", "xoxb-1")]
    (("payload", "not json") :: ("slack-message", "hello")
       :: ("channel-id", "C1") :: flag_off)
    [] [("C1", sent "C1" "1.1")] [] None.

(** The substitution flag is not a boolean. *)
Definition no_flag : World Z :=
  world [("SLACK_BOT_TOKEN", "xoxb-1")]
    [("slack-message", "hello"); ("channel-id", "C1");
     ("payload-file-path-parsed", "yes")]
    [] [("C1", sent "C1" "1.1")] [] None.

(** A reply in a thread. *)
Definition in_thread (channel ts thread : string) : settled :=
  Fulfilled (Some {| resp_ok := true; resp_ts := ts;
                     resp_thread_ts := Some thread; resp_channel := channel |}).

(** An update of a message in a thread, in one channel. *)
Definition thread_update : World Z :=
  world [("SLACK_BOT_TOKEN", "xoxb-1")]
    (("slack-message", "hello") :: ("channel-id", "C1")
       :: ("update-ts", "1.1") :: flag_off)
    [] [("C1", in_thread "C1" "1.1" "0.9")] [] None.

(** Two channels, the second of which is refused by the API. *)
Definition one_rejected : World Z :=
  world [("SLACK_BOT_TOKEN", "xoxb-1")]
    (("slack-message", "hello") :: ("channel-id", "C1,C2") :: flag_off)
    [] [("C1", sent "C1" "1.1");
        ("C2", Rejected (Error "An API error occurred: channel_not_found"))]
    [] None.

(** A webhook behind an HTTP proxy. *)
Definition behind_proxy : World Z :=
  world [("SLACK_WEBHOOK_URL", "https://hooks.slack.com/workflows/T0");
         ("https_proxy", "http://proxy.local:3128")]
    flag_off [] [] [] None.

(** A payload with a channel of its own. *)
Definition channel_payload : World Z :=
  with_parse
    (world [("SLACK_BOT_TOKEN", "xoxb-1")]
       (("payload", "{channel}") :: ("channel-id", "C1,C2") :: flag_off)
       [] [] [] None)
    (fun _ => Some (VObj [("channel", VStr "C9"); ("text", VStr "hi")])).

(** A token, a message and a channel, and no client. *)
Definition client_failure : World Z :=
  without_client both_credentials (Error "Invalid URL").

(** A payload file with the marker of the workflow syntax, read without
    the substitution flag. *)
Definition raw_file : World Z :=
  world [("SLACK_BOT_TOKEN", "xoxb-1")]
    (("slack-message", "hello") :: ("channel-id", "C1")
       :: ("payload-file-path", "payload.json") :: flag_off)
    [("payload.json", "${{ github.ref }}")] [("C1", sent "C1" "1.1")] [] None.

(** An object without nested values. *)
Definition flat_object : obj Z :=
  [("ref", VStr "main"); ("run", VNum 7%Z); ("forced", VBool false);
   ("labels", VArr [])].

End Sample.


(* ===================================================================== *)
(** ** Facts about strings *)
(* ===================================================================== *)

Module StrFacts.

Lemma truthy_length (s : string) : Str.truthy s = (0 <? String.length s)%nat.
Proof. destruct s; reflexivity. Qed.

Lemma truthy_true (s : string) : Str.truthy s = true <-> s <> "".
Proof. destruct s; simpl; split; congruence. Qed.

Lemma length_le_0 (s : string) : (String.length s <=? 0)%nat = negb (Str.truthy s).
Proof. destruct s; reflexivity. Qed.

Lemma or_empty (s : string) : Str.or s "" = s.
Proof. destruct s; reflexivity. Qed.

Lemma split_not_nil (sep : ascii) (s : string) : Str.split sep s <> [].
Proof.
  induction s as [|c rest IH]; simpl; [discriminate|].
  destruct (Ascii.eqb c sep); [discriminate|].
  destruct (Str.split sep rest); [contradiction|discriminate].
Qed.

(** One segment more than there are separators. *)
Lemma split_length (sep : ascii) (s : string) :
  List.length (Str.split sep s) = S (Str.count sep s).
Proof.
  induction s as [|c rest IH]; simpl; [reflexivity|].
  destruct (Ascii.eqb c sep); simpl; [now rewrite IH|].
  pose proof (split_not_nil sep rest) as Hne.
  destruct (Str.split sep rest); [contradiction|]. simpl in *. exact IH.
Qed.




Lemma for_both_spec (f : bool -> bool) :
  Str.for_both f = true -> forall b, f b = true.
Proof.
  unfold Str.for_both. intros H. apply andb_true_iff in H as [Ht Hf].
  intros []; assumption.
Qed.

Lemma for_all_ascii_spec (p : ascii -> bool) :
  Str.for_all_ascii p = true -> forall c, p c = true.
Proof.
  intros H [b0 b1 b2 b3 b4 b5 b6 b7]. unfold Str.for_all_ascii in H.
  apply for_both_spec with (b := b0) in H. apply for_both_spec with (b := b1) in H.
  apply for_both_spec with (b := b2) in H. apply for_both_spec with (b := b3) in H.
  apply for_both_spec with (b := b4) in H. apply for_both_spec with (b := b5) in H.
  apply for_both_spec with (b := b6) in H. apply for_both_spec with (b := b7) in H.
  exact H.
Qed.

Lemma upper_agrees_all (c d : ascii) : Str.upper_agrees c d = true.
Proof.
  revert d. apply for_all_ascii_spec. revert c. apply for_all_ascii_spec.
  vm_compute. reflexivity.
Qed.

(** Upper-casing a string of ASCII code units gives a name made of
    [plain_upper] code units exactly when the string is this name up to the
    case of the letters. *)
Lemma toUpperCaseASCII_plain (name : string) :
  Str.all Str.plain_upper name = true ->
  forall s, Str.toUpperCaseASCII s = name
            <-> Str.equal_ignoring_case s name = true.
Proof.
  intros Hname s. revert name Hname.
  induction s as [|c s IH]; intros name Hname.
  - destruct name; simpl; split; congruence.
  - destruct name as [|d name]; [simpl; split; discriminate|].
    simpl in Hname. apply andb_true_iff in Hname as [Hd Hname].
    pose proof (upper_agrees_all c d) as Hc.
    unfold Str.upper_agrees in Hc. rewrite Hd in Hc. cbn [implb] in Hc.
    apply Bool.eqb_prop in Hc.
    cbn [Str.toUpperCaseASCII Str.equal_ignoring_case].
    rewrite <- Hc, andb_true_iff, <- (IH name Hname). split.
    + intros H. inversion H. split; [apply Ascii.eqb_refl|reflexivity].
    + intros [Hu ->]. apply Ascii.eqb_eq in Hu. now rewrite Hu.
Qed.

End StrFacts.

(* ===================================================================== *)
(** ** Facts about objects *)
(* ===================================================================== *)

Section ObjFacts.

Context {number : Type} {JSN : JSNumber number}.
Implicit Types (o : obj number) (v : value number) (k : string).

Lemma obj_has_In k o : obj_has k o = true <-> In k (keys o).
Proof.
  unfold obj_has. induction o as [|[k' v'] o IH]; simpl.
  - split; [discriminate|contradiction].
  - destruct (String.eqb_spec k k') as [->|Hne].
    + split; auto.
    + rewrite IH. split; [auto|]. intros [Heq|Hin]; [congruence|assumption].
Qed.

Lemma obj_has_false k o : obj_has k o = false <-> ~ In k (keys o).
Proof.
  rewrite <- obj_has_In. destruct (obj_has k o); split; congruence.
Qed.

Lemma keys_replace k v o : keys (obj_replace k v o) = keys o.
Proof.
  induction o as [|[k' v'] o IH]; simpl; [reflexivity|].
  destruct (String.eqb_spec k k') as [->|Hne]; simpl; [reflexivity|].
  now rewrite IH.
Qed.

Lemma obj_get_replace k k' v o :
  obj_has k' o = true ->
  obj_get k (obj_replace k' v o) = if String.eqb k k' then Some v else obj_get k o.
Proof.
  unfold obj_has. induction o as [|[k2 v2] o IH]; simpl; [discriminate|].
  destruct (String.eqb_spec k' k2) as [->|Hne]; simpl.
  - intros _. destruct (String.eqb k k2); reflexivity.
  - intros H. rewrite (IH H).
    destruct (String.eqb_spec k k2) as [->|Hne2]; [|reflexivity].
    destruct (String.eqb_spec k2 k'); [congruence|reflexivity].
Qed.

(** A new key is put somewhere between the properties there are. *)
Lemma obj_insert_index_split (n : N) k v o :
  exists o1 o2, o = (o1 ++ o2)%list
                /\ obj_insert_index n k v o = (o1 ++ (k, v) :: o2)%list.
Proof.
  induction o as [|[k' v'] o IH]; simpl.
  - exists [], []. split; reflexivity.
  - destruct (array_index k') as [m|].
    + destruct (m <? n)%N.
      * destruct IH as (o1 & o2 & -> & ->).
        exists ((k', v') :: o1), o2. split; reflexivity.
      * exists [], ((k', v') :: o). split; reflexivity.
    + exists [], ((k', v') :: o). split; reflexivity.
Qed.

Lemma obj_get_app k o1 o2 :
  obj_get k (o1 ++ o2)%list
  = match obj_get k o1 with Some x => Some x | None => obj_get k o2 end.
Proof.
  induction o1 as [|[k' v'] o1 IH]; simpl; [reflexivity|].
  destruct (String.eqb k k'); [reflexivity|exact IH].
Qed.

Lemma obj_get_middle k k' v o1 o2 :
  obj_has k' (o1 ++ o2)%list = false ->
  obj_get k (o1 ++ (k', v) :: o2)%list
  = if String.eqb k k' then Some v else obj_get k (o1 ++ o2)%list.
Proof.
  intros Hnew. rewrite !obj_get_app. simpl.
  destruct (String.eqb_spec k k') as [->|Hne]; [|reflexivity].
  unfold obj_has in Hnew. rewrite obj_get_app in Hnew.
  destruct (obj_get k' o1); [discriminate|reflexivity].
Qed.

(** Reading after an assignment. *)
Lemma obj_get_set k k' v o :
  obj_get k (obj_set k' v o) = if String.eqb k k' then Some v else obj_get k o.
Proof.
  unfold obj_set. destruct (obj_has k' o) eqn:Hhas.
  - now apply obj_get_replace.
  - destruct (array_index k') as [n|].
    + destruct (obj_insert_index_split n k' v o) as (o1 & o2 & Ho & ->).
      subst o. now apply obj_get_middle.
    + replace (o ++ [(k', v)])%list with (o ++ (k', v) :: [])%list by reflexivity.
      rewrite obj_get_middle; rewrite app_nil_r; auto.
Qed.

(** The keys after an assignment: the old ones and the assigned one. *)
Lemma keys_set k k' v o :
  In k (keys (obj_set k' v o)) <-> k = k' \/ In k (keys o).
Proof.
  rewrite <- !obj_has_In. unfold obj_has. rewrite obj_get_set.
  destruct (String.eqb_spec k k') as [->|Hne].
  - split; auto.
  - split; [auto|]. intros [Heq|H]; [congruence|assumption].
Qed.

Lemma NoDup_keys_set k v o : NoDup (keys o) -> NoDup (keys (obj_set k v o)).
Proof.
  intros Hnd. unfold obj_set. destruct (obj_has k o) eqn:Hhas.
  - now rewrite keys_replace.
  - apply obj_has_false in Hhas.
    assert (Hmid : forall o1 o2, o = (o1 ++ o2)%list ->
                                 NoDup (keys (o1 ++ (k, v) :: o2)%list)).
    { intros o1 o2 ->. unfold keys in *. rewrite map_app in *. simpl.
      apply NoDup_Add with (a := k) (l := (map fst o1 ++ map fst o2)%list).
      - apply Add_app.
      - split; assumption. }
    destruct (array_index k) as [n|].
    + destruct (obj_insert_index_split n k v o) as (o1 & o2 & Ho & ->). auto.
    + apply (Hmid o []). now rewrite app_nil_r.
Qed.

Lemma obj_get_assign_all k (entries : obj number) o :
  obj_get k (assign_all entries o)
  = match obj_get k (rev entries) with
    | Some x => Some x
    | None => obj_get k o
    end.
Proof.
  unfold assign_all. revert o.
  induction entries as [|[k' v'] entries IH]; intros o; simpl; [reflexivity|].
  rewrite IH, obj_get_app, obj_get_set. simpl.
  destruct (obj_get k (rev entries)); [reflexivity|].
  destruct (String.eqb k k'); reflexivity.
Qed.

Lemma keys_assign_all k (entries : obj number) o :
  In k (keys (assign_all entries o)) <-> In k (keys entries) \/ In k (keys o).
Proof.
  unfold assign_all. revert o.
  induction entries as [|[k' v'] entries IH]; intros o; simpl.
  - tauto.
  - rewrite IH, keys_set. intuition congruence.
Qed.

Lemma NoDup_keys_assign_all (entries : obj number) o :
  NoDup (keys o) -> NoDup (keys (assign_all entries o)).
Proof.
  unfold assign_all. revert o.
  induction entries as [|[k' v'] entries IH]; intros o Hnd; simpl; [assumption|].
  apply IH. now apply NoDup_keys_set.
Qed.

(** What an object spread leaves under a key: the last property of that
    name in the spread value, else what was written before the spread. *)
Lemma obj_get_spread k (base : obj number) v :
  obj_get k (spread base v)
  = match obj_get k (rev (own_entries v)) with
    | Some x => Some x
    | None => obj_get k base
    end.
Proof. apply obj_get_assign_all. Qed.

End ObjFacts.

(* ===================================================================== *)
(** ** Facts about flattening *)
(* ===================================================================== *)

Section FlattenFacts.

Context {number : Type} {JSN : JSNumber number}.
Implicit Types (o : obj number) (v : value number) (k prev : string).

(** Induction on values with the hypotheses for the values inside. *)
Lemma value_nested_ind (P : value number -> Prop) :
  P VNull -> (forall b, P (VBool b)) -> (forall n, P (VNum n)) ->
  (forall s, P (VStr s)) ->
  (forall elems, Forall P elems -> P (VArr elems)) ->
  (forall props, Forall (fun kv => P (snd kv)) props -> P (VObj props)) ->
  forall v, P v.
Proof.
  intros HNull HBool HNum HStr HArr HObj.
  fix IH 1. intros [| b | n | s | elems | props].
  - exact HNull.
  - apply HBool.
  - apply HNum.
  - apply HStr.
  - apply HArr. induction elems as [|x elems IHl]; constructor; [apply IH|exact IHl].
  - apply HObj. induction props as [|[k x] props IHl]; constructor;
      [apply IH|exact IHl].
Qed.

Lemma fold_left_map_l {A B C} (f : A -> B -> A) (g : C -> B) (l : list C) (a : A) :
  fold_left f (map g l) a = fold_left (fun a x => f a (g x)) l a.
Proof. revert a. induction l as [|x l IH]; intros a; simpl; auto. Qed.

Lemma assign_all_app (e1 e2 : obj number) o :
  assign_all (e1 ++ e2)%list o = assign_all e2 (assign_all e1 o).
Proof. apply fold_left_app. Qed.

Lemma flat_entries_cons prev key (x : value number) :
  map (fun pl => (flat_key prev (fst pl), snd pl))
      (map (fun pl => (key :: fst pl, snd pl)) (leaves x))
  = flat_entries (newKey prev key) x.
Proof. unfold flat_entries. rewrite map_map. reflexivity. Qed.

(** The walk assigns the leaves in order, each under its key. *)
Lemma step_flat_entries v : forall prev o,
  step v prev o = assign_all (flat_entries prev v) o.
Proof.
  induction v as [| b | n | s | elems IH | props IH] using value_nested_ind;
    intros prev o; try reflexivity.
  - (* a string: every code unit is a leaf *)
    unfold flat_entries, assign_all. simpl. rewrite !fold_left_map_l. reflexivity.
  - (* an array *)
    unfold flat_entries. simpl. generalize 0 as i. revert o.
    induction IH as [|x elems Hx _ IHl]; intros o i; [reflexivity|].
    rewrite map_app, assign_all_app, <- IHl. f_equal.
    destruct (isobject x && has_keys x).
    + rewrite flat_entries_cons. apply Hx.
    + reflexivity.
  - (* an object *)
    unfold flat_entries. simpl. revert o.
    induction IH as [|[key x] props Hx _ IHl]; intros o; [reflexivity|].
    rewrite map_app, assign_all_app, <- IHl. f_equal.
    destruct (isobject x && has_keys x).
    + rewrite flat_entries_cons. apply Hx.
    + reflexivity.
Qed.

Lemma flatten_flat_entries v flat :
  flatten v = Some flat -> flat = assign_all (flat_entries "" v) [].
Proof.
  unfold flatten. intros H. rewrite <- step_flat_entries.
  destruct v; congruence.
Qed.

Lemma flatten_NoDup v flat : flatten v = Some flat -> NoDup (keys flat).
Proof.
  intros H. rewrite (flatten_flat_entries _ _ H).
  apply NoDup_keys_assign_all. constructor.
Qed.

(** The keys of the flat object are the keys of the leaves. *)
Lemma flatten_keys v flat k :
  flatten v = Some flat ->
  In k (keys flat) <-> exists pl, In pl (leaves v) /\ k = flat_key "" (fst pl).
Proof.
  intros H. rewrite (flatten_flat_entries _ _ H), keys_assign_all.
  unfold flat_entries, keys. rewrite map_map. simpl. rewrite in_map_iff.
  split.
  - intros [(pl & Hk & Hin)|[]]. exists pl. auto.
  - intros (pl & Hin & Hk). left. exists pl. auto.
Qed.

(** *** Keys are dot-joined paths *)

Lemma append_assoc (a b c : string) : ((a ++ b) ++ c = a ++ b ++ c)%string.
Proof. induction a as [|x a IH]; simpl; [reflexivity|now rewrite IH]. Qed.

Lemma flat_key_truthy prev path :
  prev <> "" ->
  flat_key prev path = fold_left (fun acc c => acc ++ "." ++ c) path prev.
Proof.
  revert prev. induction path as [|c path IH]; intros prev Hne; [reflexivity|].
  unfold flat_key in *. simpl. unfold newKey at 2.
  apply StrFacts.truthy_true in Hne as Ht. rewrite Ht.
  apply IH. destruct prev; [contradiction|discriminate].
Qed.

Lemma join_cons c (path : list string) :
  Str.join "." (c :: path) = fold_left (fun acc c => acc ++ "." ++ c) path c.
Proof.
  revert c. induction path as [|c' path IH]; intros c; [reflexivity|].
  unfold Str.join in *. simpl fold_left. rewrite <- IH.
  clear IH. revert c c'. induction path as [|c2 path IH]; intros c c'.
  - reflexivity.
  - simpl. now rewrite append_assoc.
Qed.

(** The key of a path is its components joined by dots; empty keys at the
    start of the path leave no trace, since an empty [prev] is falsy. *)
Lemma flat_key_join (path : list string) :
  flat_key "" path = Str.join "." (drop_empty path).
Proof.
  induction path as [|c path IH]; [reflexivity|].
  destruct c as [|a c].
  - exact IH.
  - change (flat_key "" (String a c :: path)) with (flat_key (String a c) path).
    rewrite flat_key_truthy by discriminate. simpl drop_empty.
    now rewrite join_cons.
Qed.

(** *** Stringifying *)

Lemma stringify_values_from (done rest : obj number) :
  NoDup (keys (done ++ rest)%list) ->
  fold_left
    (fun fp key =>
       match obj_get key fp with
       | Some x => obj_set key (VStr (ToString x)) fp
       | None => fp
       end)
    (keys rest) (done ++ rest)%list
  = (done ++ map (fun kv => (fst kv, VStr (ToString (snd kv)))) rest)%list.
Proof.
  revert done. induction rest as [|[k x] rest IH]; intros done Hnd; [reflexivity|].
  simpl fold_left. simpl map.
  assert (Hnew : obj_has k (done ++ rest)%list = false).
  { apply obj_has_false. unfold keys in *. rewrite map_app in *. simpl in Hnd.
    now apply NoDup_remove_2 in Hnd. }
  assert (Hget : obj_get k (done ++ (k, x) :: rest)%list = Some x).
  { rewrite obj_get_middle by assumption. now rewrite String.eqb_refl. }
  rewrite Hget. unfold obj_set, obj_has. rewrite Hget.
  assert (Hrep : forall y, obj_replace k y (done ++ (k, x) :: rest)%list
                           = (done ++ (k, y) :: rest)%list).
  { intros y. clear - Hnew. induction done as [|[k' x'] done IHd]; simpl.
    - now rewrite String.eqb_refl.
    - simpl in Hnew. unfold obj_has in *. simpl in Hnew.
      destruct (String.eqb k k'); [discriminate|]. now rewrite IHd. }
  rewrite Hrep.
  replace (done ++ (k, VStr (ToString x)) :: rest)%list
    with ((done ++ [(k, VStr (ToString x))]) ++ rest)%list
    by (now rewrite <- app_assoc).
  rewrite IH.
  - now rewrite <- app_assoc.
  - rewrite <- app_assoc. simpl. unfold keys in *. rewrite map_app in *. exact Hnd.
Qed.

(** On an object, whose keys are distinct, the loop of lines 117-119
    replaces every value by its string and keeps keys and order. *)
Lemma stringify_values_map (fp : obj number) :
  NoDup (keys fp) ->
  stringify_values fp = map (fun kv => (fst kv, VStr (ToString (snd kv)))) fp.
Proof. intros Hnd. apply (stringify_values_from [] fp Hnd). Qed.

Lemma obj_get_In k v o : obj_get k o = Some v -> In (k, v) o.
Proof.
  induction o as [|[k' v'] o IH]; simpl; [discriminate|].
  destruct (String.eqb_spec k k') as [->|Hne].
  - intros H. inversion H. now left.
  - intros H. right. now apply IH.
Qed.

Lemma obj_get_map (f : value number -> value number) k o :
  obj_get k (map (fun kv => (fst kv, f (snd kv))) o)
  = option_map f (obj_get k o).
Proof.
  induction o as [|[k' v'] o IH]; simpl; [reflexivity|].
  destruct (String.eqb k k'); [reflexivity|exact IH].
Qed.

(** What lines 113-121 compute from a payload that can be flattened: an
    object with distinct keys and strings for values; its keys are the
    dot-joined paths to the leaves of the payload, and the value under a key
    is the string of a leaf at that path. *)
Lemma flatten_stringify v flat0 :
  flatten v = Some flat0 ->
  let flat := stringify_values flat0 in
  NoDup (keys flat)
  /\ Forall (fun kv => is_string (snd kv) = true) flat
  /\ (forall k, In k (keys flat) <->
                exists path leaf, In (path, leaf) (leaves v)
                                  /\ k = Str.join "." (drop_empty path))
  /\ (forall k x, obj_get k flat = Some x ->
                  exists path leaf, In (path, leaf) (leaves v)
                                    /\ k = Str.join "." (drop_empty path)
                                    /\ x = VStr (ToString leaf)).
Proof.
  intros Hflat flat. pose proof (flatten_NoDup _ _ Hflat) as Hnd.
  assert (Hmap : flat = map (fun kv => (fst kv, VStr (ToString (snd kv)))) flat0)
    by now apply stringify_values_map.
  assert (Hkeys : keys flat = keys flat0).
  { rewrite Hmap. unfold keys. rewrite map_map. reflexivity. }
  split; [|split; [|split]].
  - now rewrite Hkeys.
  - rewrite Hmap. apply Forall_map, Forall_forall. reflexivity.
  - intros k. rewrite Hkeys, (flatten_keys _ _ k Hflat). split.
    + intros ([path leaf] & Hin & ->). exists path, leaf.
      split; [exact Hin|apply flat_key_join].
    + intros (path & leaf & Hin & ->). exists (path, leaf).
      split; [exact Hin|symmetry; apply flat_key_join].
  - intros k x. rewrite Hmap, (obj_get_map (fun y => VStr (ToString y))).
    destruct (obj_get k flat0) as [y|] eqn:Hget; [|discriminate].
    intros H. inversion H; subst x. clear H.
    rewrite (flatten_flat_entries _ _ Hflat), obj_get_assign_all in Hget.
    destruct (obj_get k (rev (flat_entries "" v))) as [y'|] eqn:Hrev;
      [|discriminate].
    inversion Hget; subst y'. apply obj_get_In, in_rev in Hrev.
    unfold flat_entries in Hrev. apply in_map_iff in Hrev as ([path leaf] & Heq & Hin).
    simpl in Heq. injection Heq as Hk Hy. exists path, leaf.
    rewrite <- Hk, <- Hy.
    split; [exact Hin|split; [apply flat_key_join|reflexivity]].
Qed.

End FlattenFacts.

(* ===================================================================== *)
(** ** Facts about runs *)
(* ===================================================================== *)

Section RunFacts.

Context {number : Type} {JSN : JSNumber number}.
Implicit Types (w : World number) (payload : value number)
  (t : list (event number)) (web : WebClient number).

Local Open Scope action_scope.

Lemma absent_present (x : option string) : absent x = negb (present x).
Proof. destruct x as [[|c s]|]; reflexivity. Qed.

Lemma absent_iff (x : option string) : absent x = true <-> x = None \/ x = Some "".
Proof.
  destruct x as [[|c s]|]; simpl; split; auto; try discriminate.
  intros [H|H]; discriminate.
Qed.

Lemma bind_normal {A B} t (a : A) (k : A -> Action number B) :
  bind (t, Normal a) k = ((t ++ fst (k a))%list, snd (k a)).
Proof. simpl. destruct (k a). reflexivity. Qed.

Lemma bind_ret {A B} (a : A) (k : A -> Action number B) : bind (ret a) k = k a.
Proof. unfold ret. rewrite bind_normal. destruct (k a). reflexivity. Qed.

Lemma bind_emit {B} (ev : event number) (k : unit -> Action number B) :
  bind (emit ev) k = (ev :: fst (k tt), snd (k tt)).
Proof. unfold emit. now rewrite bind_normal. Qed.

Lemma emit_all_trace (evs : list (event number)) : emit_all evs = (evs, Normal tt).
Proof.
  induction evs as [|ev evs IH]; [reflexivity|].
  cbn [emit_all]. rewrite bind_emit, IH. reflexivity.
Qed.

Lemma await_all_silent (settling : list settled) (r : option WebResponse) :
  fst (await_all (number := number) settling r) = [].
Proof.
  revert r. induction settling as [|[response|reason] settling IH]; intros r;
    simpl; auto.
Qed.

Lemma last_cons_default {A} (x : A) (l : list A) (d d' : A) :
  last (x :: l) d = last (x :: l) d'.
Proof.
  revert x. induction l as [|y l IH]; intros x; [reflexivity|].
  change (last (y :: l) d = last (y :: l) d'). apply IH.
Qed.

(** When every promise is fulfilled, the last one to settle leaves its
    response in [webResponse]. *)
Lemma await_all_fulfilled (settling : list settled) (r x : option WebResponse) :
  Forall (fun s => exists response, s = Fulfilled response) settling ->
  last settling (Fulfilled r) = Fulfilled x ->
  await_all (number := number) settling r = ret x.
Proof.
  intros H. revert r. induction H as [|s settling [response ->] _ IH]; intros r Hlast.
  - simpl in Hlast. now inversion Hlast.
  - cbn [await_all]. apply IH.
    destruct settling as [|s' settling']; [exact Hlast|].
    rewrite <- Hlast.
    change (last (Fulfilled response :: s' :: settling') (Fulfilled r))
      with (last (s' :: settling') (Fulfilled r)).
    apply last_cons_default.
Qed.

(** Every order of settling is a rearrangement of the promises. *)
Lemma settle_order_Permutation {A} (picks : list nat) (pending : list A) :
  Permutation (settle_order picks pending) pending.
Proof.
  revert picks. induction pending as [|p pending IH]; intros picks; simpl.
  - constructor.
  - symmetry. apply Permutation_cons_app.
    rewrite firstn_skipn. symmetry. apply IH.
Qed.

(** Every rearrangement is the order of settling for some picks. *)
Lemma settle_order_complete {A} (pending settling : list A) :
  Permutation pending settling ->
  exists picks, settle_order picks pending = settling.
Proof.
  revert settling. induction pending as [|p pending IH]; intros settling Hperm.
  - apply Permutation_nil in Hperm. subst. exists []. reflexivity.
  - assert (Hin : In p settling)
      by (eapply Permutation_in; [exact Hperm|now left]).
    apply in_split in Hin as (before & after & ->).
    apply Permutation_cons_app_inv in Hperm.
    destruct (IH _ Hperm) as (picks & Hpicks).
    exists (List.length before :: picks). simpl. rewrite Hpicks.
    rewrite firstn_app, firstn_all, Nat.sub_diag, skipn_app, skipn_all,
      Nat.sub_diag. simpl. now rewrite app_nil_r.
Qed.

Lemma settle_order_Forall {A} (P : A -> Prop) (picks : list nat) (pending : list A) :
  Forall P pending -> Forall P (settle_order picks pending).
Proof.
  intros H. eapply Permutation_Forall; [|exact H].
  symmetry. apply settle_order_Permutation.
Qed.

(** Case analysis on the calls of the collaborators that resolve the
    payload, then on whatever the goal still branches on. *)
Ltac resolve_cases w :=
  unfold resolvePayload, loadPayloadFile, parsePayload;
  destruct (getBooleanInput w "payload-file-path-parsed") as [[|]|?]; simpl;
  destruct (Str.truthy (getInput w "payload-file-path")
            && negb (Str.truthy (getInput w "payload"))); simpl;
  try (destruct (readFile w (getInput w "payload-file-path")) as [?|?]; simpl);
  try match goal with
      | |- context [markup_up w ?x] => destruct (markup_up w x) as [?|?]; simpl
      end;
  repeat match goal with
         | |- context [match ?x with _ => _ end] =>
             lazymatch x with
             | context [match _ with _ => _ end] => fail
             | _ => destruct x eqn:?; simpl
             end
         end.

(** Resolving the payload reads at most the payload file; when it
    completes it has logged nothing. *)
Lemma resolvePayload_normal w t payload :
  resolvePayload w = (t, Normal payload) ->
  t = [] \/ t = [ReadFile (getInput w "payload-file-path")].
Proof. resolve_cases w; intros H; inversion H; auto. Qed.

(** Whatever its completion, resolving the payload issues no delivery
    operation, sets no output and marks no failure. *)
Lemma resolvePayload_local w :
  Forall (fun e => is_local e = true) (fst (resolvePayload w)).
Proof. resolve_cases w; repeat constructor. Qed.

Lemma resolvePayload_no_return w : snd (resolvePayload w) <> Return.
Proof. resolve_cases w; discriminate. Qed.

Lemma local_not_report (e : event number) :
  is_local e = true -> is_report e = false.
Proof. destruct e; simpl; congruence. Qed.

Lemma log_not_report (e : event number) :
  is_log e = true -> is_report e = false.
Proof. destruct e; simpl; congruence. Qed.

Lemma try_catch_bind_normal {A B} t (a : A) (k : A -> Action number B) handler :
  fst (try_catch (bind (t, Normal a) k) handler)
  = (t ++ fst (try_catch (k a) handler))%list.
Proof.
  rewrite bind_normal. destruct (k a) as [t' [b|e|]]; simpl; try reflexivity.
  destruct (handler e). simpl. now rewrite app_assoc.
Qed.

Lemma try_catch_finish w (delivery : Action number unit) :
  fst (try_catch (delivery ;; emit (SetOutput "time" (toTimeString w))) setFailed)
  = finish w delivery.
Proof. unfold finish. destruct delivery as [t [[]|e|]]; reflexivity. Qed.

(** A run with credentials: the events of the resolution, then, when the
    payload is resolved, those of the delivery and the end of the run. *)
Lemma slackSend_resolved w t payload :
  absent (env w "SLACK_BOT_TOKEN") && absent (env w "SLACK_WEBHOOK_URL") = false ->
  resolvePayload w = (t, Normal payload) ->
  slackSend w = (t ++ finish w (deliver w payload))%list.
Proof.
  intros Hcred Hres. unfold slackSend, body. rewrite Hcred.
  cbn [when]. rewrite bind_ret, Hres, try_catch_bind_normal.
  now rewrite try_catch_finish.
Qed.

Lemma slackSend_token w t payload web :
  tokenTransport w t payload web ->
  slackSend w
  = (t ++ finish w (sendWithToken w (defined (env w "SLACK_BOT_TOKEN")) payload))%list.
Proof.
  intros (Htok & Hres & _). rewrite (slackSend_resolved w t payload); auto.
  - unfold deliver. now rewrite Htok.
  - rewrite absent_present, Htok. reflexivity.
Qed.

(** *** The token transport *)

Lemma fanOut_eq w web (ts message : string) payload (channelIds : string) :
  fanOut w web ts message payload channelIds
  = (map (chatCall ts message payload) (Str.split "," channelIds),
     snd (await_all (number := number)
            (settle_order (settle_picks w)
               (map (chatPromise web)
                  (map (chatCall ts message payload) (Str.split "," channelIds))))
            None)).
Proof.
  unfold fanOut. rewrite emit_all_trace, bind_normal, await_all_silent.
  now rewrite app_nil_r.
Qed.

Lemma reportResponse_reports (webResponse : option WebResponse) :
  Forall (fun e => is_report e = true /\ is_failure e = false)
    (fst (reportResponse (number := number) webResponse))
  /\ snd (reportResponse (number := number) webResponse) = Normal tt.
Proof.
  destruct webResponse as [[[|] ts thread channel]|]; simpl;
    split; repeat constructor.
Qed.

(** Past the two checks, the token transport is the fan-out followed by
    the report of the response. *)
Lemma sendWithToken_checked w (botToken : string) payload web :
  createWebClient w botToken
    (env_or (env w "HTTPS_PROXY") (env_or (env w "https_proxy") "")) = Ok web ->
  getInput w "channel-id" <> "" ->
  getInput w "slack-message" <> "" \/ ToBoolean payload = true ->
  sendWithToken w botToken payload
  = (webResponse <- fanOut w web (getInput w "update-ts")
                      (getInput w "slack-message") payload
                      (getInput w "channel-id") ;;
     reportResponse webResponse).
Proof.
  intros Hweb Hch Hcontent. unfold sendWithToken.
  rewrite Hweb, !StrFacts.or_empty. cbn [lift]. rewrite bind_ret.
  rewrite StrFacts.length_le_0. apply StrFacts.truthy_true in Hch. rewrite Hch.
  cbn [negb when]. rewrite bind_ret.
  replace ((0 <? String.length (getInput w "slack-message"))%nat || ToBoolean payload)
    with true; [reflexivity|].
  rewrite <- StrFacts.truthy_length. symmetry. apply orb_true_iff.
  destruct Hcontent as [Hmsg|Hpay]; [left; now apply StrFacts.truthy_true|now right].
Qed.

(** The events of a checked run of the token transport: the calls, one per
    channel entry and in their order, then only outputs or the failure. *)
Lemma finish_checked w web (ts message : string) payload (channelIds : string) :
  exists rest,
    finish w (webResponse <- fanOut w web ts message payload channelIds ;;
              reportResponse webResponse)
    = (map (chatCall ts message payload) (Str.split "," channelIds) ++ rest)%list
    /\ Forall (fun e => is_report e = true) rest.
Proof.
  rewrite fanOut_eq.
  destruct (snd (await_all _ None)) as [webResponse|e|] eqn:Hawait.
  - rewrite bind_normal. unfold finish. cbn [fst snd].
    destruct (reportResponse_reports webResponse) as [Hev Hc]. rewrite Hc.
    exists (fst (reportResponse (number := number) webResponse)
            ++ [SetOutput "time" (toTimeString w)])%list.
    split; [now rewrite app_assoc|].
    apply Forall_app. split; [|repeat constructor].
    eapply Forall_impl; [|exact Hev]. now intros e [He _].
  - exists [SetFailed (FailError e)]. split; [reflexivity|repeat constructor].
  - exists []. split; [now rewrite app_nil_r|constructor].
Qed.



Lemma report_not_delivery (e : event number) :
  is_report e = true -> is_delivery e = false.
Proof. destruct e; simpl; congruence. Qed.

Lemma sendWithToken_no_post w (botToken : string) payload :
  Forall (fun e => is_post e = false) (fst (sendWithToken w botToken payload)).
Proof.
  unfold sendWithToken.
  destruct (createWebClient w botToken _) as [web|e]; [|constructor].
  cbn [lift]. rewrite bind_ret.
  destruct (String.length (Str.or (getInput w "channel-id") "") <=? 0)%nat;
    [repeat constructor|].
  cbn [when]. rewrite bind_ret.
  destruct ((0 <? String.length (Str.or (getInput w "slack-message") ""))%nat
            || ToBoolean payload); [|repeat constructor].
  rewrite fanOut_eq. destruct (snd (await_all _ None)) as [webResponse|e|].
  - rewrite bind_normal. cbn [fst]. apply Forall_app. split.
    + apply Forall_map, Forall_forall. intros channelId _.
      unfold chatCall. destruct (Str.truthy _); reflexivity.
    + destruct (reportResponse_reports webResponse) as [Hev _].
      eapply Forall_impl; [|exact Hev]. intros [] [He _]; try discriminate He;
        reflexivity.
  - cbn [bind fst]. apply Forall_map, Forall_forall. intros channelId _.
    unfold chatCall. destruct (Str.truthy _); reflexivity.
  - cbn [bind fst]. apply Forall_map, Forall_forall. intros channelId _.
    unfold chatCall. destruct (Str.truthy _); reflexivity.
Qed.

(** *** The webhook transport *)

Lemma defaultPayload_eq w payload :
  exists logs body,
    defaultPayload w payload = (logs, Normal body)
    /\ Forall (fun e => is_log e = true) logs
    /\ ToBoolean body = true
    /\ body = (if ToBoolean payload then payload else VObj (context_payload w)).
Proof.
  unfold defaultPayload. destruct (ToBoolean payload) eqn:Htruthy.
  - exists [], payload. repeat split; auto.
  - exists [ConsoleLog [LStr Msg.default_payload_log]], (VObj (context_payload w)).
    repeat split; auto.
Qed.

Lemma flatten_truthy payload :
  ToBoolean payload = true -> exists flat, flatten payload = Some flat.
Proof. destruct payload; simpl; try discriminate; eauto. Qed.

Lemma shapePayload_eq (type : string) payload :
  ToBoolean payload = true ->
  exists body, shapePayload type payload = ([], Normal body).
Proof.
  intros Htruthy. unfold shapePayload.
  destruct (String.eqb type SLACK_WEBHOOK_TYPES.WORKFLOW_TRIGGER);
    [|eexists; reflexivity].
  destruct (flatten_truthy payload Htruthy) as [flat ->]. eexists; reflexivity.
Qed.

Lemma configureProxy_eq w (webhookUrl : string) :
  exists logs opts,
    configureProxy w webhookUrl = (logs, Normal opts)
    /\ Forall (fun e => is_log e = true) logs.
Proof.
  unfold configureProxy, scheme.
  destruct (parseURL w webhookUrl) as [urlScheme|];
    [|eexists _, _; split; [reflexivity|repeat constructor]].
  rewrite bind_ret.
  destruct (String.eqb urlScheme "https");
    [|eexists _, _; split; [reflexivity|repeat constructor]].
  cbv zeta.
  destruct (Str.truthy (env_or (env w "HTTPS_PROXY") (env_or (env w "https_proxy") "")));
    [|eexists _, _; split; [reflexivity|repeat constructor]].
  destruct (parseURL w _) as [proxyScheme|];
    [|eexists _, _; split; [reflexivity|repeat constructor]].
  rewrite bind_ret.
  destruct (String.eqb proxyScheme "http");
    [|eexists _, _; split; [reflexivity|repeat constructor]].
  destruct (HttpsProxyAgent w _) as [agent|e];
    eexists _, _; (split; [reflexivity|repeat constructor]).
Qed.

(** The webhook transport always gets to its POST: it logs, then posts
    the shaped payload with some options. *)
Lemma sendWithWebhook_eq w (webhookUrl : string) payload :
  exists logs body opts,
    sendWithWebhook w webhookUrl payload
    = ((logs ++ fst (post w webhookUrl body opts))%list,
       snd (post w webhookUrl body opts))
    /\ Forall (fun e => is_log e = true) logs
    /\ exists shaping,
         (shown <- defaultPayload w payload ;; shapePayload (webhookType w) shown)
         = (shaping, Normal body).
Proof.
  unfold sendWithWebhook.
  destruct (defaultPayload_eq w payload) as (logs1 & body1 & -> & Hlogs1 & Ht & _).
  rewrite !bind_normal.
  destruct (shapePayload_eq (webhookType w) body1 Ht) as (body & ->).
  rewrite bind_normal.
  destruct (configureProxy_eq w webhookUrl) as (logs2 & opts & -> & Hlogs2).
  rewrite bind_normal. cbn [fst snd app].
  exists (logs1 ++ logs2)%list, body, opts. split; [|split].
  - now rewrite app_assoc.
  - apply Forall_app. now split.
  - eexists. reflexivity.
Qed.

(** The POST and what follows it. *)
Lemma post_eq w (webhookUrl : string) (body : value number) (opts : AxiosOpts) :
  match axios_post w webhookUrl body opts with
  | None => post w webhookUrl body opts
            = ([AxiosPost webhookUrl body opts], Normal tt)
  | Some err =>
      exists logs,
        post w webhookUrl body opts
        = ((AxiosPost webhookUrl body opts :: logs
            ++ [SetFailed (postFailure err)])%list, Return)
        /\ Forall (fun e => is_log e = true) logs
  end.
Proof.
  unfold post, postFailure. destruct (axios_post w webhookUrl body opts) as [err|];
    [|reflexivity].
  destruct (err_toJSON err) as [json|].
  - exists [ConsoleLog [LStr Msg.post_failed_log];
            ConsoleError [LStr (JSON_stringify w json)];
            ConsoleError [LStr (Msg.attempted_log (JSON_stringify w body))]].
    split; [|repeat constructor]. destruct (err_response err); reflexivity.
  - exists [ConsoleLog [LStr Msg.post_failed_log];
            ConsoleError [LStr (Msg.attempted_log (JSON_stringify w body))]].
    split; [|repeat constructor]. destruct (err_response err); reflexivity.
Qed.

(** A run with credentials, by the way the resolution completes. *)
Lemma slackSend_credentials w :
  absent (env w "SLACK_BOT_TOKEN") && absent (env w "SLACK_WEBHOOK_URL") = false ->
  slackSend w
  = (fst (resolvePayload w)
     ++ match snd (resolvePayload w) with
        | Normal payload => finish w (deliver w payload)
        | Throw e => [SetFailed (FailError e)]
        | Return => []
        end)%list.
Proof.
  intros Hcred. destruct (resolvePayload w) as [t [payload|e|]] eqn:Hres.
  - now apply slackSend_resolved.
  - unfold slackSend, body. rewrite Hcred, Hres. reflexivity.
  - unfold slackSend, body. rewrite Hcred, Hres. cbn. now rewrite app_nil_r.
Qed.

Lemma in_finish w (delivery : Action number unit) (e : event number) :
  In e (finish w delivery) -> In e (fst delivery) \/ is_report e = true.
Proof.
  unfold finish. destruct (snd delivery); auto; intros Hin;
    apply in_app_or in Hin as [Hin|[<-|[]]]; auto.
Qed.

(** A run that posts is a run of the webhook transport on a resolved
    payload: the events of the resolution, console lines, then the POST of
    the shaped payload and what follows it. *)
Lemma slackSend_posted w (url : string) (posted : value number) (opts : AxiosOpts) :
  In (AxiosPost url posted opts) (slackSend w) ->
  exists payload logs,
    slackSend w
    = (fst (resolvePayload w)
       ++ finish w ((logs ++ fst (post w url posted opts))%list,
                    snd (post w url posted opts)))%list
    /\ Forall (fun e => is_log e = true) logs
    /\ exists shaping,
         (shown <- defaultPayload w payload ;; shapePayload (webhookType w) shown)
         = (shaping, Normal posted).
Proof.
  intros Hin.
  destruct (absent (env w "SLACK_BOT_TOKEN") && absent (env w "SLACK_WEBHOOK_URL"))
    eqn:Hcred.
  { unfold slackSend, body in Hin. rewrite Hcred in Hin.
    destruct Hin as [Hin|[]]. discriminate Hin. }
  rewrite (slackSend_credentials w Hcred) in *.
  pose proof (resolvePayload_local w) as Hlocal.
  apply in_app_or in Hin as [Hin|Hin].
  { rewrite Forall_forall in Hlocal. specialize (Hlocal _ Hin).
    discriminate Hlocal. }
  destruct (snd (resolvePayload w)) as [payload|e|];
    [|destruct Hin as [Hin|[]]; discriminate Hin|destruct Hin].
  unfold deliver in *.
  destruct (present (env w "SLACK_BOT_TOKEN")).
  { apply in_finish in Hin as [Hin|Hin]; [|discriminate Hin].
    pose proof (sendWithToken_no_post w (defined (env w "SLACK_BOT_TOKEN")) payload)
      as Hnone.
    rewrite Forall_forall in Hnone. specialize (Hnone _ Hin). discriminate Hnone. }
  destruct (present (env w "SLACK_WEBHOOK_URL"));
    [|destruct Hin as [Hin|[]]; discriminate Hin].
  destruct (sendWithWebhook_eq w (defined (env w "SLACK_WEBHOOK_URL")) payload)
    as (logs & body' & opts' & Hsend & Hlogs & Hshape).
  rewrite Hsend in *. clear Hsend.
  assert (Hsame : AxiosPost (defined (env w "SLACK_WEBHOOK_URL")) body' opts'
                  = AxiosPost url posted opts).
  { pose proof (post_eq w (defined (env w "SLACK_WEBHOOK_URL")) body' opts') as Hpost.
    apply in_finish in Hin as [Hin|Hin]; [|discriminate Hin]. cbn [fst] in Hin.
    apply in_app_or in Hin as [Hin|Hin].
    { rewrite Forall_forall in Hlogs. specialize (Hlogs _ Hin). discriminate Hlogs. }
    destruct (axios_post w _ body' opts') as [err'|].
    - destruct Hpost as (logs' & Hpost & Hlogs'). rewrite Hpost in Hin.
      destruct Hin as [Hin|Hin]; [exact Hin|].
      apply in_app_or in Hin as [Hin|[Hin|[]]]; [|discriminate Hin].
      rewrite Forall_forall in Hlogs'. specialize (Hlogs' _ Hin). discriminate Hlogs'.
    - rewrite Hpost in Hin. destruct Hin as [Hin|[]]. exact Hin. }
  inversion Hsame; subst url body' opts'.
  exists payload, logs. auto.
Qed.

End RunFacts.

(* ===================================================================== *)
(** ** The properties of the specification *)
(* ===================================================================== *)

Section Properties.

Context {number : Type} {JSN : JSNumber number}.
Implicit Types (w : World number) (payload : value number)
  (t : list (event number)) (web : WebClient number).

Local Open Scope action_scope.

(** C1. When the bot token and the webhook URL are both absent or empty,
    the run consists of the single failure 'Need to provide at least one
    botToken or webhookUrl': no file is read, no payload resolved or shaped,
    no request sent. *)
Theorem C1_no_credentials_fails_first w :
  (env w "SLACK_BOT_TOKEN" = None \/ env w "SLACK_BOT_TOKEN" = Some "") ->
  (env w "SLACK_WEBHOOK_URL" = None \/ env w "SLACK_WEBHOOK_URL" = Some "") ->
  slackSend w = [SetFailed (FailError (Error Msg.no_credentials))].
Proof.
  intros Htok Hurl. apply absent_iff in Htok, Hurl.
  unfold slackSend, body. now rewrite Htok, Hurl.
Qed.

(** C2. On the webhook transport with the type WORKFLOW_TRIGGER, the
    payload (the resolved one, or the payload of the event when that one is
    absent) is shaped into one object whose keys are distinct and are the
    dot-joined paths to the leaves of the payload, and whose values are all
    strings, the value under a key being the string of a leaf at that path;
    this object is the body of every POST of such a run. For the object with
    a.b = 1 and a.c = [2, 3] the result is exactly a.b -> 1, a.c.0 -> 2,
    a.c.1 -> 3, as strings. *)
Theorem C2_workflow_trigger_payload_is_flat_strings :
  (forall w payload,
      let source := if ToBoolean payload then payload
                    else VObj (context_payload w) in
      exists logs flat,
        (shown <- defaultPayload w payload ;;
         shapePayload SLACK_WEBHOOK_TYPES.WORKFLOW_TRIGGER shown)
        = (logs, Normal (VObj flat))
        /\ NoDup (keys flat)
        /\ Forall (fun kv => is_string (snd kv) = true) flat
        /\ (forall k, In k (keys flat) <->
                      exists path leaf, In (path, leaf) (leaves source)
                                        /\ k = Str.join "." (drop_empty path))
        /\ (forall k x, obj_get k flat = Some x ->
                        exists path leaf, In (path, leaf) (leaves source)
                                          /\ k = Str.join "." (drop_empty path)
                                          /\ x = VStr (ToString leaf)))
  /\ (forall w (url : string) (posted : value number) (opts : AxiosOpts),
        webhookType w = SLACK_WEBHOOK_TYPES.WORKFLOW_TRIGGER ->
        In (AxiosPost url posted opts) (slackSend w) ->
        exists flat, posted = VObj flat
                     /\ NoDup (keys flat)
                     /\ Forall (fun kv => is_string (snd kv) = true) flat)
  /\ shapePayload SLACK_WEBHOOK_TYPES.WORKFLOW_TRIGGER Sample.nested
     = ([], Normal (VObj [("a.b", VStr "1"); ("a.c.0", VStr "2");
                          ("a.c.1", VStr "3")])).
Proof.
  assert (Hshape : forall w payload,
      let source := if ToBoolean payload then payload
                    else VObj (context_payload w) in
      exists logs flat,
        (shown <- defaultPayload w payload ;;
         shapePayload SLACK_WEBHOOK_TYPES.WORKFLOW_TRIGGER shown)
        = (logs, Normal (VObj flat))
        /\ NoDup (keys flat)
        /\ Forall (fun kv => is_string (snd kv) = true) flat
        /\ (forall k, In k (keys flat) <->
                      exists path leaf, In (path, leaf) (leaves source)
                                        /\ k = Str.join "." (drop_empty path))
        /\ (forall k x, obj_get k flat = Some x ->
                        exists path leaf, In (path, leaf) (leaves source)
                                          /\ k = Str.join "." (drop_empty path)
                                          /\ x = VStr (ToString leaf))).
  { intros w payload source.
    destruct (defaultPayload_eq w payload) as (logs & shown & -> & _ & Ht & Hshown).
    fold source in Hshown. subst shown. rewrite bind_normal.
    destruct (flatten_truthy source Ht) as [flat0 Hflat].
    unfold shapePayload. rewrite Hflat.
    exists logs, (stringify_values flat0). split.
    - cbn. now rewrite app_nil_r.
    - exact (flatten_stringify source flat0 Hflat). }
  split; [exact Hshape|]. split; [|reflexivity].
  intros w url posted opts Htype Hin.
  destruct (slackSend_posted w url posted opts Hin)
    as (payload & _ & _ & _ & shaping & Hposted).
  destruct (Hshape w payload) as (logs & flat & Hflat & Hnd & Hstr & _).
  rewrite Htype, Hflat in Hposted. inversion Hposted; subst.
  exists flat. auto.
Qed.

(** C3. When the POST of the webhook transport fails, the run ends with the
    failure it reports: the body of the response when the error carries a
    response, the message of the error otherwise. Nothing is reported
    before it and nothing comes after it, so the time output is not set. *)
Theorem C3_failed_post_reports_and_stops w (url : string) (posted : value number)
    (opts : AxiosOpts) (err : AxiosError number) :
  In (AxiosPost url posted opts) (slackSend w) ->
  axios_post w url posted opts = Some err ->
  exists before,
    slackSend w
    = (before ++ [SetFailed (match err_response err with
                             | Some data => FailData data
                             | None => FailMessage (err_message err)
                             end)])%list
    /\ Forall (fun e => is_report e = false) before.
Proof.
  intros Hin Hfail.
  destruct (slackSend_posted w url posted opts Hin) as (payload & logs & -> & Hlogs & _).
  pose proof (post_eq w url posted opts) as Hpost.
  rewrite Hfail in Hpost. destruct Hpost as (logs' & -> & Hlogs').
  unfold finish, postFailure. cbn [fst snd].
  exists (fst (resolvePayload w) ++ logs ++ AxiosPost url posted opts :: logs')%list.
  split.
  - rewrite <- !app_assoc. cbn [app]. reflexivity.
  - apply Forall_app. split; [|apply Forall_app; split; [|constructor]].
    + eapply Forall_impl; [|exact (resolvePayload_local w)]. apply local_not_report.
    + eapply Forall_impl; [|exact Hlogs]. apply log_not_report.
    + reflexivity.
    + eapply Forall_impl; [|exact Hlogs']. apply log_not_report.
Qed.

(** C4, as the code has it. With a payload file and the substitution flag,
    the text of the file is rewritten ([${{] to [{{]) and rendered, and what
    is parsed as JSON is the rendered text. A non-empty rendered text that
    is not valid JSON fails the run with 'Need to provide valid JSON
    payload', not with the error that names the path. An empty rendered
    text is not parsed: it stands for an absent payload. *)
Theorem C4_file_is_rendered_then_parsed w (text rendered : string) :
  present (env w "SLACK_BOT_TOKEN") = true
  \/ present (env w "SLACK_WEBHOOK_URL") = true ->
  getInput w "payload" = "" ->
  getInput w "payload-file-path" <> "" ->
  getBooleanInput w "payload-file-path-parsed" = Ok true ->
  readFile w (getInput w "payload-file-path") = Ok text ->
  markup_up w (Str.replaceAll "${{" "{{" text) = Ok rendered ->
  match rendered, JSON_parse w rendered with
  | "", _ =>
      resolvePayload w
      = ([ReadFile (getInput w "payload-file-path")], Normal (VStr ""))
  | _, Some parsed =>
      resolvePayload w
      = ([ReadFile (getInput w "payload-file-path")], Normal parsed)
  | _, None =>
      slackSend w
      = [ReadFile (getInput w "payload-file-path");
         ConsoleError [LStr Msg.invalid_json_log];
         SetFailed (FailError (Error Msg.invalid_json))]
  end.
Proof.
  intros Hcred Hinline Hpath Hflag Hread Hrender.
  assert (Hload : loadPayloadFile w "" (getInput w "payload-file-path") true
                  = ([ReadFile (getInput w "payload-file-path")], Normal rendered)).
  { unfold loadPayloadFile. apply StrFacts.truthy_true in Hpath. rewrite Hpath.
    cbn [Str.truthy negb andb]. rewrite Hread. cbn [lift]. rewrite bind_ret.
    cbv zeta. rewrite Hrender. reflexivity. }
  assert (Hres : resolvePayload w
                 = ((ReadFile (getInput w "payload-file-path")
                     :: fst (parsePayload w rendered))%list,
                    snd (parsePayload w rendered))).
  { unfold resolvePayload. rewrite Hflag, Hinline. cbn [lift]. rewrite bind_ret.
    rewrite Hload, bind_normal. reflexivity. }
  destruct rendered as [|c rendered]; [exact Hres|].
  unfold parsePayload in Hres. cbn [Str.truthy] in Hres.
  destruct (JSON_parse w (String c rendered)) as [parsed|]; [exact Hres|].
  unfold slackSend, body.
  replace (absent (env w "SLACK_BOT_TOKEN") && absent (env w "SLACK_WEBHOOK_URL"))
    with false.
  - cbn [when]. rewrite bind_ret, Hres. reflexivity.
  - rewrite !absent_present.
    destruct Hcred as [-> | ->]; [reflexivity|now rewrite andb_false_r].
Qed.

(** C5. On the token transport, past the channel and content checks, the
    run issues one operation per comma-separated channel entry, in their
    order and nothing else as a delivery: an update when update-ts is given,
    a post otherwise. The argument of each one is the object with the
    trimmed channel entry, the message text (and the timestamp of an update)
    onto which the fields of the payload are merged: under every key it has
    the payload's property of that name when there is one, else what was
    written before the spread. *)
Theorem C5_one_operation_per_channel w t payload web :
  tokenTransport w t payload web ->
  getInput w "channel-id" <> "" ->
  getInput w "slack-message" <> "" \/ ToBoolean payload = true ->
  let ts := getInput w "update-ts" in
  let message := getInput w "slack-message" in
  let operation (channelId : string) :=
    (if Str.truthy ts then ChatUpdate else ChatPostMessage)
      (chatArguments ts channelId message payload) in
  (exists rest,
      slackSend w
      = (t ++ map operation (Str.split "," (getInput w "channel-id")) ++ rest)%list
      /\ Forall (fun e => is_delivery e = false) t
      /\ Forall (fun e => is_delivery e = false) rest)
  /\ (forall channelId k,
        obj_get k (chatArguments ts channelId message payload)
        = match obj_get k (rev (own_entries (or_empty payload))) with
          | Some field => Some field
          | None =>
              obj_get k
                ((if Str.truthy ts then [("ts", VStr ts)] else [])
                 ++ [("channel", VStr (Str.trim channelId));
                     ("text", VStr message)])%list
          end).
Proof.
  intros Hrun Hch Hcontent ts message operation. split.
  - rewrite (slackSend_token w t payload web Hrun).
    destruct Hrun as (_ & Hres & Hweb).
    rewrite (sendWithToken_checked w _ payload web Hweb Hch Hcontent).
    destruct (finish_checked w web ts message payload (getInput w "channel-id"))
      as (rest & Heq & Hrest).
    exists rest. fold ts message. rewrite Heq. split; [|split].
    + f_equal. f_equal. apply map_ext. intros channelId.
      unfold chatCall, operation. destruct (Str.truthy ts); reflexivity.
    + destruct (resolvePayload_normal w t payload Hres) as [->| ->];
        repeat constructor.
    + eapply Forall_impl; [|exact Hrest]. apply report_not_delivery.
  - intros channelId k. unfold chatArguments.
    destruct (Str.truthy ts); apply obj_get_spread.
Qed.

(** C6. On the token transport an empty channel input fails the run with
    'Channel ID is required to run this action. An empty one has been
    provided', whatever the message text and the payload are: the check
    comes before the one on the content. *)
Theorem C6_empty_channel_fails w t payload web :
  tokenTransport w t payload web ->
  getInput w "channel-id" = "" ->
  slackSend w
  = (t ++ [ConsoleLog [LStr Msg.no_channel];
           SetFailed (FailError (Error Msg.no_channel))])%list.
Proof.
  intros Hrun Hch. rewrite (slackSend_token w t payload web Hrun).
  destruct Hrun as (_ & _ & Hweb).
  unfold sendWithToken. rewrite Hweb, Hch. reflexivity.
Qed.

(** C7. On the token transport, with a channel given, an empty message
    text and an absent (falsy) payload fail the run with 'Missing message
    content, ...', and no delivery operation is issued. *)
Theorem C7_empty_content_fails w t payload web :
  tokenTransport w t payload web ->
  getInput w "channel-id" <> "" ->
  getInput w "slack-message" = "" ->
  ToBoolean payload = false ->
  slackSend w
  = (t ++ [ConsoleLog
             [LStr Msg.no_content_log;
              LVal (VObj (spread [("channel", VStr (getInput w "channel-id"));
                                  ("text", VStr "")] payload))];
           SetFailed (FailError (Error Msg.no_content))])%list
  /\ Forall (fun e => is_delivery e = false) (slackSend w).
Proof.
  intros Hrun Hch Hmsg Hfalsy.
  assert (Heq : slackSend w
    = (t ++ [ConsoleLog
               [LStr Msg.no_content_log;
                LVal (VObj (spread [("channel", VStr (getInput w "channel-id"));
                                    ("text", VStr "")] payload))];
             SetFailed (FailError (Error Msg.no_content))])%list).
  { rewrite (slackSend_token w t payload web Hrun).
    destruct Hrun as (_ & _ & Hweb).
    unfold sendWithToken. rewrite Hweb, Hmsg, StrFacts.or_empty, Hfalsy.
    cbn [lift Str.or Str.truthy]. rewrite bind_ret, StrFacts.length_le_0.
    apply StrFacts.truthy_true in Hch. rewrite Hch. reflexivity. }
  split; [exact Heq|]. rewrite Heq. apply Forall_app. split.
  - destruct Hrun as (_ & Hres & _).
    destruct (resolvePayload_normal w t payload Hres) as [->| ->];
      repeat constructor.
  - repeat constructor.
Qed.

(** C8, as the code has it. The webhook type is the upper-cased override,
    whatever string that is, and WORKFLOW_TRIGGER when the override is unset
    or empty; it is not limited to the two named types. It is
    WORKFLOW_TRIGGER exactly when the override is unset, empty, or a string
    that the built-in upper-cases to that name; for an override of ASCII
    code units, on which the built-in changes the letters a-z only, that is
    exactly when it is the name up to the case of its letters. The payload
    is flattened and stringified exactly when the type is WORKFLOW_TRIGGER;
    under every other type, INCOMING_WEBHOOK or not, it is posted as it
    is. *)
Theorem C8_webhook_type_is_the_upper_cased_override w :
  (forall override, env w "SLACK_WEBHOOK_TYPE" = Some override -> override <> "" ->
                    webhookType w = toUpperCase w override)
  /\ (env w "SLACK_WEBHOOK_TYPE" = None \/ env w "SLACK_WEBHOOK_TYPE" = Some "" ->
      webhookType w = SLACK_WEBHOOK_TYPES.WORKFLOW_TRIGGER)
  /\ (webhookType w = SLACK_WEBHOOK_TYPES.WORKFLOW_TRIGGER <->
      match env w "SLACK_WEBHOOK_TYPE" with
      | Some override =>
          override = "" \/ toUpperCase w override = "WORKFLOW_TRIGGER"
      | None => True
      end)
  /\ ((forall s, Str.all Str.is_ascii s = true ->
                 toUpperCase w s = Str.toUpperCaseASCII s) ->
      forall override,
        env w "SLACK_WEBHOOK_TYPE" = Some override -> override <> "" ->
        Str.all Str.is_ascii override = true ->
        (webhookType w = SLACK_WEBHOOK_TYPES.WORKFLOW_TRIGGER <->
         Str.equal_ignoring_case override "WORKFLOW_TRIGGER" = true))
  /\ (forall payload flat,
        webhookType w = SLACK_WEBHOOK_TYPES.WORKFLOW_TRIGGER ->
        flatten payload = Some flat ->
        shapePayload (webhookType w) payload = ret (VObj (stringify_values flat)))
  /\ (forall payload,
        webhookType w <> SLACK_WEBHOOK_TYPES.WORKFLOW_TRIGGER ->
        shapePayload (webhookType w) payload = ret payload).
Proof.
  assert (Hname : forall s, Str.toUpperCaseASCII s = "WORKFLOW_TRIGGER"
                            <-> Str.equal_ignoring_case s "WORKFLOW_TRIGGER" = true)
    by (apply StrFacts.toUpperCaseASCII_plain; reflexivity).
  unfold webhookType, SLACK_WEBHOOK_TYPES.WORKFLOW_TRIGGER.
  split; [|split; [|split; [|split; [|split]]]].
  - intros override -> Hne. apply StrFacts.truthy_true in Hne. now rewrite Hne.
  - intros [-> | ->]; reflexivity.
  - destruct (env w "SLACK_WEBHOOK_TYPE") as [override|]; [|tauto].
    destruct override as [|c override]; [simpl; tauto|].
    cbn [Str.truthy]. split; [auto|].
    intros [Hempty|Heq]; [discriminate Hempty|exact Heq].
  - intros Hascii override -> Hne Hoverride.
    apply StrFacts.truthy_true in Hne. rewrite Hne.
    rewrite (Hascii override Hoverride). apply Hname.
  - intros payload flat Htype Hflat. unfold shapePayload.
    unfold SLACK_WEBHOOK_TYPES.WORKFLOW_TRIGGER. rewrite Htype, Hflat. reflexivity.
  - intros payload Hother. unfold shapePayload.
    unfold SLACK_WEBHOOK_TYPES.WORKFLOW_TRIGGER.
    apply String.eqb_neq in Hother. now rewrite Hother.
Qed.

(** C9. On the token transport, when every operation is fulfilled and the
    response recorded last, that of the last operation to settle, is missing
    or has ok = false, the run consists of the events of the resolution, the
    operations and the time output: none of ts, thread_ts and channel_id is
    set, and the run is not marked failed. *)
Theorem C9_unsuccessful_response_sets_time_only w t payload web webResponse :
  tokenTransport w t payload web ->
  getInput w "channel-id" <> "" ->
  getInput w "slack-message" <> "" \/ ToBoolean payload = true ->
  let calls :=
    map (chatCall (getInput w "update-ts") (getInput w "slack-message") payload)
      (Str.split "," (getInput w "channel-id")) in
  let settling := settle_order (settle_picks w) (map (chatPromise web) calls) in
  Forall (fun call => exists response, chatPromise web call = Fulfilled response)
    calls ->
  last settling (Fulfilled None) = Fulfilled webResponse ->
  webResponse = None \/ (exists r, webResponse = Some r /\ resp_ok r = false) ->
  slackSend w = (t ++ calls ++ [SetOutput "time" (toTimeString w)])%list
  /\ Forall (fun e => is_message_output e = false /\ is_failure e = false)
       (slackSend w).
Proof.
  intros Hrun Hch Hcontent calls settling Hall Hlast Hbad.
  assert (Heq : slackSend w
                = (t ++ calls ++ [SetOutput "time" (toTimeString w)])%list).
  { rewrite (slackSend_token w t payload web Hrun).
    destruct Hrun as (_ & Hres & Hweb).
    rewrite (sendWithToken_checked w _ payload web Hweb Hch Hcontent).
    rewrite fanOut_eq. fold calls settling.
    rewrite (await_all_fulfilled settling None webResponse); [|
      apply settle_order_Forall; now apply Forall_map | exact Hlast].
    cbn [ret snd]. rewrite bind_normal. unfold finish. cbn [fst snd].
    destruct Hbad as [->|(r & -> & Hok)]; cbn [reportResponse]; [|rewrite Hok];
      cbn [ret fst snd]; now rewrite app_nil_r. }
  split; [exact Heq|]. rewrite Heq.
  destruct Hrun as (_ & Hres & _).
  apply Forall_app. split; [|apply Forall_app; split].
  - destruct (resolvePayload_normal w t payload Hres) as [->| ->];
      repeat constructor.
  - unfold calls. apply Forall_map, Forall_forall. intros channelId _.
    unfold chatCall. destruct (Str.truthy _); split; reflexivity.
  - repeat constructor.
Qed.


End Properties.

(* ===================================================================== *)
(** ** The properties on the sample worlds *)
(* ===================================================================== *)

(** No token and no webhook URL: the run is the one failure. *)
Lemma C1_no_credentials_run :
  env Sample.no_credentials "SLACK_BOT_TOKEN" = Some ""
  /\ env Sample.no_credentials "SLACK_WEBHOOK_URL" = None
  /\ slackSend Sample.no_credentials
     = [SetFailed (FailError (Error Msg.no_credentials))].
Proof.
  split; [reflexivity|]. split; [reflexivity|].
  apply (C1_no_credentials_fails_first Sample.no_credentials).
  - right. reflexivity.
  - left. reflexivity.
Defined.

(** Scenario D: the failure reported is the body of the response. *)
Lemma C3_failed_post_run :
  exists before,
    slackSend Sample.failed_post
    = (before ++ [SetFailed (FailData (VStr "invalid_payload"))])%list
    /\ Forall (fun e => is_report e = false) before.
Proof.
  apply (C3_failed_post_reports_and_stops Sample.failed_post
           "https://hooks.slack.com/workflows/T0"
           (VObj [("ref", VStr "main")]) noOpts
           {| err_toJSON := None;
              err_response := Some (VStr "invalid_payload");
              err_message := "Request failed with status code 400" |}).
  - right. left. reflexivity.
  - reflexivity.
Defined.

(** A template file that is not JSON once rendered: the run fails on the
    JSON, after the file was read. *)
Lemma C4_bad_file_run :
  slackSend Sample.bad_file
  = [ReadFile "payload.json";
     ConsoleError [LStr Msg.invalid_json_log];
     SetFailed (FailError (Error Msg.invalid_json))].
Proof.
  apply (C4_file_is_rendered_then_parsed Sample.bad_file
           "${{ github.ref }}" "refs/heads/main").
  - left. reflexivity.
  - reflexivity.
  - discriminate.
  - reflexivity.
  - reflexivity.
  - reflexivity.
Defined.

(** An empty template file is not valid JSON, and the run neither parses it
    nor fails: the message is posted and the outputs are set. *)
Lemma C4_empty_file_is_not_rejected :
  getInput Sample.empty_file "payload" = ""
  /\ getInput Sample.empty_file "payload-file-path" = "payload.json"
  /\ getBooleanInput Sample.empty_file "payload-file-path-parsed" = Ok true
  /\ readFile Sample.empty_file "payload.json" = Ok ""
  /\ markup_up Sample.empty_file (Str.replaceAll "${{" "{{" "") = Ok ""
  /\ JSON_parse Sample.empty_file "" = None
  /\ slackSend Sample.empty_file
     = [ReadFile "payload.json";
        ChatPostMessage [("channel", VStr "C1"); ("text", VStr "hello")];
        SetOutput "ts" "1.1"; SetOutput "thread_ts" "1.1";
        SetOutput "channel_id" "C1";
        SetOutput "time" (toTimeString Sample.empty_file)]
  /\ ~ In (SetFailed (FailError (Error Msg.invalid_json)))
         (slackSend Sample.empty_file).
Proof.
  repeat (split; [reflexivity|]).
  intros Hin. cbv in Hin. repeat (destruct Hin as [Hin|Hin]; [discriminate Hin|]).
  exact Hin.
Qed.

(** Scenario A: one post per channel, each with the text of the payload. *)
Lemma C5_two_channels_run :
  let hi := VObj [("text", VStr "hi")] in
  let web := Sample.client [("C1", Sample.sent "C1" "1.1");
                            ("C2", Sample.sent "C2" "2.2")] in
  tokenTransport Sample.two_channels [] hi web
  /\ exists rest,
       slackSend Sample.two_channels
       = ([ChatPostMessage [("channel", VStr "C1"); ("text", VStr "hi")];
           ChatPostMessage [("channel", VStr "C2"); ("text", VStr "hi")]]
          ++ rest)%list
       /\ Forall (fun e => is_delivery e = false) rest.
Proof.
  intros hi web.
  assert (Hrun : tokenTransport Sample.two_channels [] hi web)
    by (repeat split; reflexivity).
  split; [exact Hrun|].
  destruct (C5_one_operation_per_channel Sample.two_channels [] hi web Hrun)
    as [(rest & Heq & _ & Hrest) _].
  - discriminate.
  - right. reflexivity.
  - exists rest. split; [exact Heq|exact Hrest].
Defined.

(** A message and no channel: the run fails on the channel. *)
Lemma C6_no_channel_run :
  tokenTransport Sample.no_channel [] (VStr "") (Sample.client [])
  /\ getInput Sample.no_channel "slack-message" = "hello"
  /\ slackSend Sample.no_channel
     = [ConsoleLog [LStr Msg.no_channel];
        SetFailed (FailError (Error Msg.no_channel))].
Proof.
  assert (Hrun : tokenTransport Sample.no_channel [] (VStr "") (Sample.client []))
    by (repeat split; reflexivity).
  split; [exact Hrun|]. split; [reflexivity|].
  apply (C6_empty_channel_fails Sample.no_channel [] (VStr "") (Sample.client []) Hrun).
  reflexivity.
Defined.

(** A channel and nothing to send: the run fails on the content. *)
Lemma C7_no_content_run :
  tokenTransport Sample.no_content [] (VStr "") (Sample.client [])
  /\ Forall (fun e => is_delivery e = false) (slackSend Sample.no_content).
Proof.
  assert (Hrun : tokenTransport Sample.no_content [] (VStr "") (Sample.client []))
    by (repeat split; reflexivity).
  split; [exact Hrun|].
  apply (C7_empty_content_fails Sample.no_content [] (VStr "") (Sample.client []) Hrun).
  - discriminate.
  - reflexivity.
  - reflexivity.
Defined.

(** An override that names no webhook type is upper-cased and kept: the
    type is then neither of the two named ones. *)
Lemma C8_unknown_override_is_neither_type :
  env Sample.foo_type "SLACK_WEBHOOK_TYPE" = Some "foo"
  /\ webhookType Sample.foo_type = "FOO"
  /\ webhookType Sample.foo_type <> SLACK_WEBHOOK_TYPES.WORKFLOW_TRIGGER
  /\ webhookType Sample.foo_type <> SLACK_WEBHOOK_TYPES.INCOMING_WEBHOOK.
Proof. repeat split; try reflexivity; discriminate. Qed.

(** A post answered with ok = false: only the time output is set. *)
Lemma C9_refused_post_run :
  slackSend Sample.refused_post
  = [ChatPostMessage [("channel", VStr "C1"); ("text", VStr "hello")];
     SetOutput "time" (toTimeString Sample.refused_post)]
  /\ Forall (fun e => is_message_output e = false /\ is_failure e = false)
       (slackSend Sample.refused_post).
Proof.
  apply (C9_unsuccessful_response_sets_time_only Sample.refused_post []
           (VStr "") (Sample.client [("C1", Sample.refused "C1")])
           (Some {| resp_ok := false; resp_ts := ""; resp_thread_ts := None;
                    resp_channel := "C1" |})).
  - repeat split; reflexivity.
  - discriminate.
  - left. discriminate.
  - repeat constructor. eexists. reflexivity.
  - reflexivity.
  - right. eexists. split; reflexivity.
Defined.



(** An override in mixed case selects WORKFLOW_TRIGGER. *)
Lemma C8_mixed_case_override_run :
  env Sample.mixed_case_type "SLACK_WEBHOOK_TYPE" = Some "Workflow_Trigger"
  /\ webhookType Sample.mixed_case_type = SLACK_WEBHOOK_TYPES.WORKFLOW_TRIGGER.
Proof.
  split; [reflexivity|].
  destruct (C8_webhook_type_is_the_upper_cased_override Sample.mixed_case_type)
    as (_ & _ & _ & Hcase & _).
  apply (Hcase (fun s _ => eq_refl) "Workflow_Trigger").
  - reflexivity.
  - discriminate.
  - reflexivity.
  - reflexivity.
Defined.

(** Scenario B: without a payload the payload of the event is posted,
    flattened and with strings for values. *)
Example scenario_B_event_payload_run :
  slackSend Sample.event_payload
  = [ConsoleLog [LStr Msg.default_payload_log];
     AxiosPost "https://hooks.slack.com/workflows/T0"
       (VObj [("ref", VStr "main")]) noOpts;
     SetOutput "time" (toTimeString Sample.event_payload)].
Proof. reflexivity. Qed.

(* ===================================================================== *)
(** ** More facts about runs *)
(* ===================================================================== *)

Section MoreRunFacts.

Context {number : Type} {JSN : JSNumber number}.
Implicit Types (w : World number) (payload : value number)
  (t : list (event number)) (web : WebClient number).

Local Open Scope action_scope.

Lemma credentials_present w :
  absent (env w "SLACK_BOT_TOKEN") && absent (env w "SLACK_WEBHOOK_URL") = false
  <-> present (env w "SLACK_BOT_TOKEN") = true
      \/ present (env w "SLACK_WEBHOOK_URL") = true.
Proof.
  rewrite !absent_present.
  destruct (present (env w "SLACK_BOT_TOKEN")),
    (present (env w "SLACK_WEBHOOK_URL")); simpl; intuition congruence.
Qed.

Lemma await_all_no_return (settling : list settled) (r : option WebResponse) :
  snd (await_all (number := number) settling r) <> Return.
Proof.
  revert r. induction settling as [|[response|reason] settling IH]; intros r;
    simpl; [discriminate|apply IH|discriminate].
Qed.

(** [Promise.all] rejects with the first rejection to settle. *)
Lemma await_all_rejected (before after : list settled) (reason : exn)
    (r : option WebResponse) :
  Forall (fun s => exists response, s = Fulfilled response) before ->
  await_all (number := number) (before ++ Rejected reason :: after) r
  = throw reason.
Proof.
  intros H. revert r. induction H as [|s before [response ->] _ IH]; intros r.
  - reflexivity.
  - cbn [app await_all]. apply IH.
Qed.

(** The token transport, branch by branch. *)
Lemma sendWithToken_cases w (botToken : string) payload :
  match createWebClient w botToken (httpsProxy w) with
  | Raise e => sendWithToken w botToken payload = ([], Throw e)
  | Ok web =>
      if Str.truthy (getInput w "channel-id") then
        if Str.truthy (getInput w "slack-message") || ToBoolean payload then
          sendWithToken w botToken payload
          = (webResponse <- fanOut w web (getInput w "update-ts")
                              (getInput w "slack-message") payload
                              (getInput w "channel-id") ;;
             reportResponse webResponse)
        else
          sendWithToken w botToken payload
          = ([ConsoleLog
                [LStr Msg.no_content_log;
                 LVal (VObj (spread [("channel", VStr (getInput w "channel-id"));
                                     ("text", VStr (getInput w "slack-message"))]
                               payload))]],
             Throw (Error Msg.no_content))
      else
        sendWithToken w botToken payload
        = ([ConsoleLog [LStr Msg.no_channel]], Throw (Error Msg.no_channel))
  end.
Proof.
  unfold httpsProxy.
  destruct (createWebClient w botToken _) as [web|e] eqn:Hweb.
  - destruct (Str.truthy (getInput w "channel-id")) eqn:Hch.
    + destruct (Str.truthy (getInput w "slack-message") || ToBoolean payload)
        eqn:Hcontent.
      * apply StrFacts.truthy_true in Hch. apply orb_true_iff in Hcontent.
        apply (sendWithToken_checked w botToken payload web Hweb Hch).
        destruct Hcontent as [Hmsg|Hpay];
          [left; now apply StrFacts.truthy_true|now right].
      * unfold sendWithToken.
        rewrite Hweb, !StrFacts.or_empty, StrFacts.length_le_0, Hch.
        rewrite <- StrFacts.truthy_length, Hcontent. reflexivity.
    + unfold sendWithToken.
      rewrite Hweb, !StrFacts.or_empty, StrFacts.length_le_0, Hch. reflexivity.
  - unfold sendWithToken. rewrite Hweb. reflexivity.
Qed.

(** The token transport logs, calls the chat methods and sets the outputs
    of the message; it returns nowhere. *)
Lemma sendWithToken_events w (botToken : string) payload :
  Forall (fun e => is_log e || is_chat e || is_message_output e = true)
    (fst (sendWithToken w botToken payload))
  /\ snd (sendWithToken w botToken payload) <> Return.
Proof.
  pose proof (sendWithToken_cases w botToken payload) as Hcases.
  destruct (createWebClient w botToken (httpsProxy w)) as [web|e].
  - destruct (Str.truthy (getInput w "channel-id")).
    + destruct (Str.truthy (getInput w "slack-message") || ToBoolean payload).
      * rewrite Hcases, fanOut_eq.
        assert (Hcalls : forall ts message channelIds,
                   Forall (fun e => is_log e || is_chat e || is_message_output e = true)
                     (map (chatCall ts message payload)
                        (Str.split "," channelIds))).
        { intros ts message channelIds. apply Forall_map, Forall_forall.
          intros channelId _. unfold chatCall. destruct (Str.truthy ts); reflexivity. }
        pose proof (await_all_no_return
                      (settle_order (settle_picks w)
                         (map (chatPromise web)
                            (map (chatCall (getInput w "update-ts")
                                    (getInput w "slack-message") payload)
                               (Str.split "," (getInput w "channel-id")))))
                      None) as Hnoret.
        destruct (snd (await_all _ None)) as [webResponse|e|];
          [|split; [apply Hcalls|discriminate]|contradiction].
        rewrite bind_normal. cbn [fst snd]. split.
        -- apply Forall_app. split; [apply Hcalls|].
           destruct webResponse as [[[|] ts thread channel]|]; simpl;
             repeat constructor.
        -- destruct (reportResponse_reports (number := number) webResponse)
             as [_ ->]. discriminate.
      * rewrite Hcases. split; [repeat constructor|discriminate].
    + rewrite Hcases. split; [repeat constructor|discriminate].
  - rewrite Hcases. split; [constructor|discriminate].
Qed.

(** The webhook transport logs, posts once, and either completes or
    reports the failure of the POST and returns. *)
Lemma sendWithWebhook_cases w (webhookUrl : string) payload :
  exists logs posted opts,
    Forall (fun e => is_log e = true) logs
    /\ (exists shaping,
          (shown <- defaultPayload w payload ;; shapePayload (webhookType w) shown)
          = (shaping, Normal posted))
    /\ match axios_post w webhookUrl posted opts with
       | None =>
           sendWithWebhook w webhookUrl payload
           = ((logs ++ [AxiosPost webhookUrl posted opts])%list, Normal tt)
       | Some err =>
           exists logs',
             Forall (fun e => is_log e = true) logs'
             /\ sendWithWebhook w webhookUrl payload
                = ((logs ++ AxiosPost webhookUrl posted opts :: logs'
                    ++ [SetFailed (postFailure err)])%list, Return)
       end.
Proof.
  destruct (sendWithWebhook_eq w webhookUrl payload)
    as (logs & posted & opts & Hsend & Hlogs & Hshape).
  exists logs, posted, opts. split; [exact Hlogs|]. split; [exact Hshape|].
  pose proof (post_eq w webhookUrl posted opts) as Hpost.
  destruct (axios_post w webhookUrl posted opts) as [err|].
  - destruct Hpost as (logs' & Hpost & Hlogs'). exists logs'.
    split; [exact Hlogs'|]. now rewrite Hsend, Hpost.
  - now rewrite Hsend, Hpost.
Qed.

(** A property of the events of every run: it holds of the failure for
    want of credentials, of the local events of the resolution, of the
    failure the resolution throws, and of the events from the delivery on. *)
Lemma run_events w (P : event number -> Prop) :
  P (SetFailed (FailError (Error Msg.no_credentials))) ->
  (forall e, is_local e = true -> P e) ->
  (forall error, P (SetFailed (FailError error))) ->
  (forall payload, snd (resolvePayload w) = Normal payload ->
                   Forall P (finish w (deliver w payload))) ->
  Forall P (slackSend w).
Proof.
  intros Hnone Hlocal Hthrown Hdeliver.
  destruct (absent (env w "SLACK_BOT_TOKEN") && absent (env w "SLACK_WEBHOOK_URL"))
    eqn:Hcred.
  - unfold slackSend, body. rewrite Hcred. repeat constructor. exact Hnone.
  - rewrite (slackSend_credentials w Hcred). apply Forall_app. split.
    + eapply Forall_impl; [|exact (resolvePayload_local w)]. exact Hlocal.
    + destruct (snd (resolvePayload w)) as [payload|e|] eqn:Hres.
      * now apply Hdeliver.
      * repeat constructor. apply Hthrown.
      * constructor.
Qed.

(** The events from the delivery on, on the token transport. *)
Lemma finish_token w payload :
  present (env w "SLACK_BOT_TOKEN") = true ->
  exists events last,
    finish w (deliver w payload) = (events ++ [last])%list
    /\ Forall (fun e => is_log e || is_chat e || is_message_output e = true) events
    /\ is_end last = true.
Proof.
  intros Htok. unfold deliver. rewrite Htok.
  destruct (sendWithToken_events w (defined (env w "SLACK_BOT_TOKEN")) payload)
    as [Hev Hnoret].
  unfold finish.
  destruct (sendWithToken w (defined (env w "SLACK_BOT_TOKEN")) payload)
    as [events [[]|e|]]; cbn [fst snd] in *.
  - exists events, (SetOutput "time" (toTimeString w)). auto.
  - exists events, (SetFailed (FailError e)). auto.
  - contradiction.
Qed.

(** The events from the delivery on, on the webhook transport. *)
Lemma finish_webhook w payload :
  present (env w "SLACK_BOT_TOKEN") = false ->
  present (env w "SLACK_WEBHOOK_URL") = true ->
  exists logs posted opts logs' last,
    finish w (deliver w payload)
    = (logs ++ AxiosPost (defined (env w "SLACK_WEBHOOK_URL")) posted opts
         :: logs' ++ [last])%list
    /\ Forall (fun e => is_log e = true) logs
    /\ Forall (fun e => is_log e = true) logs'
    /\ is_end last = true
    /\ (exists shaping,
          (shown <- defaultPayload w payload ;; shapePayload (webhookType w) shown)
          = (shaping, Normal posted)).
Proof.
  intros Htok Hurl. unfold deliver. rewrite Htok, Hurl.
  destruct (sendWithWebhook_cases w (defined (env w "SLACK_WEBHOOK_URL")) payload)
    as (logs & posted & opts & Hlogs & Hshape & Hsend).
  exists logs, posted, opts.
  destruct (axios_post w _ posted opts) as [err|].
  - destruct Hsend as (logs' & Hlogs' & ->).
    exists logs', (SetFailed (postFailure err)). unfold finish. cbn [fst snd].
    repeat split; auto.
  - rewrite Hsend. exists [], (SetOutput "time" (toTimeString w)).
    unfold finish. cbn [fst snd]. rewrite <- app_assoc.
    repeat split; auto.
Qed.

Lemma obj_get_rev (k : string) (o : obj number) :
  NoDup (keys o) -> obj_get k (rev o) = obj_get k o.
Proof.
  induction o as [|[k' v'] o IH]; intros Hnd; [reflexivity|].
  simpl in Hnd. inversion Hnd as [|? ? Hnew Hnd']; subst.
  simpl rev. rewrite obj_get_app, (IH Hnd'). simpl.
  destruct (String.eqb_spec k k') as [->|Hne].
  - apply obj_has_false in Hnew. unfold obj_has in Hnew.
    destruct (obj_get k' o); [discriminate|reflexivity].
  - destruct (obj_get k o); reflexivity.
Qed.

(** Where a chat call of a run comes from: the fan-out of the token
    transport, on the resolved payload, for one of the channel entries. *)
Lemma slackSend_chat w (e : event number) :
  In e (slackSend w) -> is_chat e = true ->
  exists payload channelId,
    snd (resolvePayload w) = Normal payload
    /\ In channelId (Str.split "," (getInput w "channel-id"))
    /\ e = chatCall (getInput w "update-ts") (getInput w "slack-message")
             payload channelId.
Proof.
  intros Hin Hchat.
  destruct (absent (env w "SLACK_BOT_TOKEN") && absent (env w "SLACK_WEBHOOK_URL"))
    eqn:Hcred.
  { unfold slackSend, body in Hin. rewrite Hcred in Hin.
    destruct Hin as [<-|[]]. discriminate Hchat. }
  rewrite (slackSend_credentials w Hcred) in Hin.
  apply in_app_or in Hin as [Hin|Hin].
  { pose proof (resolvePayload_local w) as Hlocal.
    rewrite Forall_forall in Hlocal. specialize (Hlocal _ Hin).
    destruct e; discriminate. }
  destruct (snd (resolvePayload w)) as [payload|err|];
    [|destruct Hin as [<-|[]]; discriminate Hchat|destruct Hin].
  exists payload.
  assert (Hreport : is_report e = true -> False)
    by (destruct e; discriminate).
  destruct (present (env w "SLACK_BOT_TOKEN")) eqn:Htok.
  - unfold deliver in Hin. rewrite Htok in Hin.
    apply in_finish in Hin as [Hin|Hin]; [|now apply Hreport in Hin].
    pose proof (sendWithToken_cases w (defined (env w "SLACK_BOT_TOKEN")) payload)
      as Hcases.
    assert (Hlog : forall l, In e l -> Forall (fun x => is_log x = true) l -> False).
    { intros l Hl Hall. rewrite Forall_forall in Hall. specialize (Hall _ Hl).
      destruct e; discriminate. }
    destruct (createWebClient w _ (httpsProxy w)) as [web|err];
      [|rewrite Hcases in Hin; destruct Hin].
    destruct (Str.truthy (getInput w "channel-id"));
      [|rewrite Hcases in Hin; exfalso; apply (Hlog _ Hin); repeat constructor].
    destruct (Str.truthy (getInput w "slack-message") || ToBoolean payload);
      [|rewrite Hcases in Hin; exfalso; apply (Hlog _ Hin); repeat constructor].
    rewrite Hcases, fanOut_eq in Hin.
    assert (Hcalls : In e (map (chatCall (getInput w "update-ts")
                                  (getInput w "slack-message") payload)
                             (Str.split "," (getInput w "channel-id")))).
    { destruct (snd (await_all _ None)) as [webResponse|err|]; [|exact Hin|exact Hin].
      rewrite bind_normal in Hin. cbn [fst] in Hin.
      apply in_app_or in Hin as [Hin|Hin]; [exact Hin|].
      destruct (reportResponse_reports (number := number) webResponse) as [Hev _].
      rewrite Forall_forall in Hev. destruct (Hev _ Hin) as [He _].
      now apply Hreport in He. }
    apply in_map_iff in Hcalls as (channelId & <- & Hentry).
    exists channelId. auto.
  - exfalso. unfold deliver in Hin. rewrite Htok in Hin.
    destruct (present (env w "SLACK_WEBHOOK_URL")) eqn:Hurl;
      [|destruct Hin as [<-|[]]; discriminate Hchat].
    apply in_finish in Hin as [Hin|Hin]; [|now apply Hreport in Hin].
    destruct (sendWithWebhook_cases w (defined (env w "SLACK_WEBHOOK_URL")) payload)
      as (logs & posted & opts & Hlogs & _ & Hsend).
    assert (Hlog : forall l, In e l -> Forall (fun x => is_log x = true) l -> False).
    { intros l Hl Hall. rewrite Forall_forall in Hall. specialize (Hall _ Hl).
      destruct e; discriminate. }
    destruct (axios_post w _ posted opts) as [err|].
    + destruct Hsend as (logs' & Hlogs' & Hsend). rewrite Hsend in Hin.
      cbn [fst] in Hin. apply in_app_or in Hin as [Hin|[<-|Hin]].
      * apply (Hlog _ Hin Hlogs).
      * discriminate Hchat.
      * apply in_app_or in Hin as [Hin|[<-|[]]];
          [apply (Hlog _ Hin Hlogs')|discriminate Hchat].
    + rewrite Hsend in Hin. cbn [fst] in Hin.
      apply in_app_or in Hin as [Hin|[<-|[]]];
        [apply (Hlog _ Hin Hlogs)|discriminate Hchat].
Qed.

End MoreRunFacts.

(* ===================================================================== *)
(** ** Further properties of slack-send.js *)
(* ===================================================================== *)

Section Further.

Context {number : Type} {JSN : JSNumber number}.
Implicit Types (w : World number) (payload : value number)
  (t : list (event number)) (web : WebClient number).

Local Open Scope action_scope.

Lemma present_some (x : option string) (s : string) :
  x = Some s -> s <> "" -> present x = true.
Proof. intros -> Hne. destruct s; [contradiction|reflexivity]. Qed.

Lemma present_none (x : option string) :
  x = None \/ x = Some "" -> present x = false.
Proof. intros [-> | ->]; reflexivity. Qed.

Lemma token_event_kinds (e : event number) :
  is_log e || is_chat e || is_message_output e = true ->
  is_post e = false /\ is_read e = false /\ is_end e = false.
Proof.
  destruct e as [| | | | | |name v|]; simpl; intros H;
    try discriminate H; repeat split.
  destruct (String.eqb_spec name "time") as [->|]; [discriminate H|reflexivity].
Qed.

Lemma log_kinds (e : event number) :
  is_log e = true ->
  is_post e = false /\ is_read e = false /\ is_end e = false
  /\ is_chat e = false /\ is_message_output e = false.
Proof. destruct e; simpl; intros H; try discriminate H; repeat split. Qed.

Lemma end_kinds (e : event number) :
  is_end e = true ->
  is_post e = false /\ is_read e = false
  /\ is_chat e = false /\ is_message_output e = false.
Proof.
  destruct e as [| | | | | |name v|]; simpl; intros H;
    try discriminate H; repeat split.
  apply String.eqb_eq in H. subst name. reflexivity.
Qed.

Lemma local_not_end (e : event number) : is_local e = true -> is_end e = false.
Proof. destruct e; simpl; intros H; try discriminate H; reflexivity. Qed.

(** The events from the delivery on, whatever the transport: a property
    that holds of console lines, chat calls, posts, outputs and
    failures holds of all of them. *)
Lemma finish_deliver_events w payload (P : event number -> Prop) :
  (forall e, is_read e = false -> P e) ->
  Forall P (finish w (deliver w payload)).
Proof.
  intros HP.
  destruct (present (env w "SLACK_BOT_TOKEN")) eqn:Htok.
  - destruct (finish_token w payload Htok) as (events & last & -> & Hev & Hlast).
    apply Forall_app. split.
    + eapply Forall_impl; [|exact Hev]. intros e He. apply HP.
      now apply token_event_kinds in He.
    + repeat constructor. apply HP. now apply end_kinds in Hlast.
  - destruct (present (env w "SLACK_WEBHOOK_URL")) eqn:Hurl.
    + destruct (finish_webhook w payload Htok Hurl)
        as (logs & posted & opts & logs' & last & -> & Hlogs & Hlogs' & Hlast & _).
      apply Forall_app. split; [|constructor; [|apply Forall_app; split]].
      * eapply Forall_impl; [|exact Hlogs]. intros e He. apply HP.
        now apply log_kinds in He.
      * now apply HP.
      * eapply Forall_impl; [|exact Hlogs']. intros e He. apply HP.
        now apply log_kinds in He.
      * repeat constructor. apply HP. now apply end_kinds in Hlast.
    + unfold deliver. rewrite Htok, Hurl. repeat constructor. now apply HP.
Qed.

(** X1. When a bot token is given, the run never posts to the webhook,
    whatever SLACK_WEBHOOK_URL is: the token has priority. *)
Theorem token_transport_never_posts w (botToken : string) :
  env w "SLACK_BOT_TOKEN" = Some botToken -> botToken <> "" ->
  Forall (fun e => is_post e = false) (slackSend w).
Proof.
  intros Henv Hne. pose proof (present_some _ _ Henv Hne) as Htok.
  apply run_events; try reflexivity.
  - intros e He. destruct e; simpl in *; congruence.
  - intros payload _.
    destruct (finish_token w payload Htok) as (events & last & -> & Hev & Hlast).
    apply Forall_app. split.
    + eapply Forall_impl; [|exact Hev]. intros e He.
      now apply token_event_kinds in He.
    + repeat constructor. now apply end_kinds in Hlast.
Qed.

(** X2. Without a bot token the run calls no chat method and sets none of the
    outputs ts, thread_ts and channel_id: the webhook transport yields the
    time output only. *)
Theorem webhook_transport_never_chats w :
  env w "SLACK_BOT_TOKEN" = None \/ env w "SLACK_BOT_TOKEN" = Some "" ->
  Forall (fun e => is_chat e = false /\ is_message_output e = false)
    (slackSend w).
Proof.
  intros Henv. pose proof (present_none _ Henv) as Htok.
  apply run_events; try (split; reflexivity).
  - intros e He. destruct e; simpl in *; try discriminate He; split; reflexivity.
  - intros payload _.
    destruct (present (env w "SLACK_WEBHOOK_URL")) eqn:Hurl.
    + destruct (finish_webhook w payload Htok Hurl)
        as (logs & posted & opts & logs' & last & -> & Hlogs & Hlogs' & Hlast & _).
      apply Forall_app. split; [|constructor; [|apply Forall_app; split]].
      * eapply Forall_impl; [|exact Hlogs]. intros e He.
        now apply log_kinds in He.
      * split; reflexivity.
      * eapply Forall_impl; [|exact Hlogs']. intros e He.
        now apply log_kinds in He.
      * repeat constructor; now apply end_kinds in Hlast.
    + unfold deliver. rewrite Htok, Hurl. repeat constructor.
Qed.

(** X3. An inline payload has precedence over a payload file: when the input
    payload is not empty the file is never read, whatever
    payload-file-path is. *)
Theorem inline_payload_wins w :
  getInput w "payload" <> "" ->
  Forall (fun e => is_read e = false) (slackSend w).
Proof.
  intros Hinline. apply StrFacts.truthy_true in Hinline.
  assert (Hres : Forall (fun e => is_read e = false) (fst (resolvePayload w))).
  { unfold resolvePayload, loadPayloadFile, parsePayload. rewrite Hinline.
    rewrite andb_false_r.
    destruct (getBooleanInput w "payload-file-path-parsed") as [flag|e];
      [|constructor].
    cbn [lift]. rewrite !bind_ret, Hinline.
    destruct (JSON_parse w (getInput w "payload")); simpl; repeat constructor. }
  destruct (absent (env w "SLACK_BOT_TOKEN") && absent (env w "SLACK_WEBHOOK_URL"))
    eqn:Hcred.
  - unfold slackSend, body. rewrite Hcred. repeat constructor.
  - rewrite (slackSend_credentials w Hcred). apply Forall_app. split; [exact Hres|].
    destruct (snd (resolvePayload w)) as [payload|e|].
    + apply finish_deliver_events. auto.
    + repeat constructor.
    + constructor.
Qed.

(** X21. Every run ends exactly once: its last event is the time output or the
    failure, and neither occurs before. So a run never sets the time
    output after a failure, never fails twice, and never ends silently. *)
Theorem run_ends_exactly_once w :
  exists before last,
    slackSend w = (before ++ [last])%list
    /\ is_end last = true
    /\ Forall (fun e => is_end e = false) before.
Proof.
  destruct (absent (env w "SLACK_BOT_TOKEN") && absent (env w "SLACK_WEBHOOK_URL"))
    eqn:Hcred.
  { exists [], (SetFailed (FailError (Error Msg.no_credentials))).
    unfold slackSend, body. rewrite Hcred. repeat split. constructor. }
  rewrite (slackSend_credentials w Hcred).
  assert (Hlocal : Forall (fun e => is_end e = false) (fst (resolvePayload w))).
  { eapply Forall_impl; [|exact (resolvePayload_local w)]. apply local_not_end. }
  pose proof (resolvePayload_no_return w) as Hnoret.
  destruct (snd (resolvePayload w)) as [payload|e|]; [| |contradiction].
  - apply credentials_present in Hcred.
    destruct (present (env w "SLACK_BOT_TOKEN")) eqn:Htok.
    + destruct (finish_token w payload Htok) as (events & last & -> & Hev & Hlast).
      exists (fst (resolvePayload w) ++ events)%list, last.
      split; [now rewrite app_assoc|]. split; [exact Hlast|].
      apply Forall_app. split; [exact Hlocal|].
      eapply Forall_impl; [|exact Hev]. intros e He.
      now apply token_event_kinds in He.
    + destruct Hcred as [Hcred|Hurl]; [discriminate Hcred|].
      destruct (finish_webhook w payload Htok Hurl)
        as (logs & posted & opts & logs' & last & -> & Hlogs & Hlogs' & Hlast & _).
      exists (fst (resolvePayload w) ++ logs
              ++ AxiosPost (defined (env w "SLACK_WEBHOOK_URL")) posted opts
              :: logs')%list, last.
      split; [now rewrite <- !app_assoc|]. split; [exact Hlast|].
      apply Forall_app. split; [exact Hlocal|].
      apply Forall_app. split; [|constructor; [reflexivity|]].
      * eapply Forall_impl; [|exact Hlogs]. intros e He. now apply log_kinds in He.
      * eapply Forall_impl; [|exact Hlogs']. intros e He. now apply log_kinds in He.
  - exists (fst (resolvePayload w)), (SetFailed (FailError e)). auto.
Qed.

(** X4. A payload file that cannot be loaded fails the run with the error
    that names the path, after the cause is written to the console: this is
    so when the read fails, and also, with the substitution flag, when the
    rendering of the text that was read fails. Nothing is delivered. *)
Theorem unloadable_file_fails_with_the_path w (flag : bool) (cause : exn) :
  present (env w "SLACK_BOT_TOKEN") = true
  \/ present (env w "SLACK_WEBHOOK_URL") = true ->
  getInput w "payload" = "" ->
  getInput w "payload-file-path" <> "" ->
  getBooleanInput w "payload-file-path-parsed" = Ok flag ->
  readFile w (getInput w "payload-file-path") = Raise cause
  \/ (flag = true
      /\ exists text,
           readFile w (getInput w "payload-file-path") = Ok text
           /\ markup_up w (Str.replaceAll "${{" "{{" text) = Raise cause) ->
  slackSend w
  = [ReadFile (getInput w "payload-file-path");
     ConsoleError [LErr cause];
     SetFailed (FailError (Error (Msg.bad_file (getInput w "payload-file-path"))))].
Proof.
  intros Hcred Hinline Hpath Hflag Hcause.
  apply credentials_present in Hcred. apply StrFacts.truthy_true in Hpath.
  assert (Hload : loadPayloadFile w "" (getInput w "payload-file-path") flag
                  = ([ReadFile (getInput w "payload-file-path");
                      ConsoleError [LErr cause]],
                     Throw (Error (Msg.bad_file (getInput w "payload-file-path"))))).
  { unfold loadPayloadFile. rewrite Hpath. cbn [Str.truthy negb andb].
    destruct Hcause as [Hread|(-> & text & Hread & Hrender)]; rewrite Hread.
    - reflexivity.
    - cbn [lift]. rewrite bind_ret. cbv zeta. rewrite Hrender. reflexivity. }
  unfold slackSend, body. rewrite Hcred. cbn [when]. rewrite bind_ret.
  unfold resolvePayload. rewrite Hflag, Hinline. cbn [lift]. rewrite bind_ret, Hload.
  reflexivity.
Qed.

(** X5. An inline payload that is not valid JSON fails the run with 'Need to
    provide valid JSON payload' before any delivery, on either transport and
    whatever the other inputs are. *)
Theorem invalid_inline_payload_fails w (flag : bool) :
  present (env w "SLACK_BOT_TOKEN") = true
  \/ present (env w "SLACK_WEBHOOK_URL") = true ->
  getBooleanInput w "payload-file-path-parsed" = Ok flag ->
  getInput w "payload" <> "" ->
  JSON_parse w (getInput w "payload") = None ->
  slackSend w
  = [ConsoleError [LStr Msg.invalid_json_log];
     SetFailed (FailError (Error Msg.invalid_json))].
Proof.
  intros Hcred Hflag Hinline Hparse.
  apply credentials_present in Hcred. apply StrFacts.truthy_true in Hinline.
  unfold slackSend, body. rewrite Hcred. cbn [when]. rewrite bind_ret.
  unfold resolvePayload, loadPayloadFile, parsePayload.
  rewrite Hflag, Hinline, andb_false_r. cbn [lift]. rewrite !bind_ret.
  rewrite Hinline, Hparse. reflexivity.
Qed.

(** X6. The substitution flag is read before the payload is looked at: when
    reading it throws, the run fails with that error and nothing else
    happens, even if no payload file is given. *)
Theorem malformed_flag_fails_first w (error : exn) :
  present (env w "SLACK_BOT_TOKEN") = true
  \/ present (env w "SLACK_WEBHOOK_URL") = true ->
  getBooleanInput w "payload-file-path-parsed" = Raise error ->
  slackSend w = [SetFailed (FailError error)].
Proof.
  intros Hcred Hflag. apply credentials_present in Hcred.
  unfold slackSend, body. rewrite Hcred. cbn [when]. rewrite bind_ret.
  unfold resolvePayload. rewrite Hflag. reflexivity.
Qed.

(** X8. The client is created before the channel and the content are
    checked: when creating it throws, the run fails with that error, calls
    nothing and does not report a missing channel or content. *)
Theorem client_failure_fails_the_run w t payload (botToken : string) (error : exn) :
  env w "SLACK_BOT_TOKEN" = Some botToken -> botToken <> "" ->
  resolvePayload w = (t, Normal payload) ->
  createWebClient w botToken (httpsProxy w) = Raise error ->
  slackSend w = (t ++ [SetFailed (FailError error)])%list.
Proof.
  intros Henv Hne Hres Hweb. pose proof (present_some _ _ Henv Hne) as Htok.
  rewrite (slackSend_resolved w t payload); [|
    apply credentials_present; now left | exact Hres].
  unfold deliver. rewrite Htok, Henv. cbn [defined].
  pose proof (sendWithToken_cases w botToken payload) as Hcases.
  rewrite Hweb in Hcases. rewrite Hcases. reflexivity.
Qed.

(** X9. When every operation is fulfilled and the response of the last one to
    settle has ok set, the run sets ts, thread_ts and channel_id from that
    response alone, then the time output: thread_ts is the thread of the
    response when it has one, its own ts otherwise. *)
Theorem successful_response_sets_the_outputs w t payload web (r : WebResponse) :
  tokenTransport w t payload web ->
  getInput w "channel-id" <> "" ->
  getInput w "slack-message" <> "" \/ ToBoolean payload = true ->
  let calls :=
    map (chatCall (getInput w "update-ts") (getInput w "slack-message") payload)
      (Str.split "," (getInput w "channel-id")) in
  let settling := settle_order (settle_picks w) (map (chatPromise web) calls) in
  Forall (fun call => exists response, chatPromise web call = Fulfilled response)
    calls ->
  last settling (Fulfilled None) = Fulfilled (Some r) ->
  resp_ok r = true ->
  slackSend w
  = (t ++ calls
       ++ [SetOutput "ts" (resp_ts r);
           SetOutput "thread_ts"
             (match resp_thread_ts r with
              | Some thread => if Str.truthy thread then thread else resp_ts r
              | None => resp_ts r
              end);
           SetOutput "channel_id" (resp_channel r);
           SetOutput "time" (toTimeString w)])%list.
Proof.
  intros Hrun Hch Hcontent calls settling Hall Hlast Hok.
  rewrite (slackSend_token w t payload web Hrun).
  destruct Hrun as (_ & Hres & Hweb).
  rewrite (sendWithToken_checked w _ payload web Hweb Hch Hcontent).
  rewrite fanOut_eq. fold calls settling.
  rewrite (await_all_fulfilled settling None (Some r)); [|
    apply settle_order_Forall; now apply Forall_map | exact Hlast].
  cbn [ret snd]. rewrite bind_normal. unfold finish.
  cbn [reportResponse]. rewrite Hok. cbn. now rewrite <- app_assoc.
Qed.

(** X10. When an operation is rejected, every operation has been issued all the
    same, and the run fails with the reason of the first rejection to
    settle: no output is set, not even for the channels that were served. *)
Theorem rejected_operation_fails_the_run w t payload web
    (fulfilled later : list settled) (reason : exn) :
  tokenTransport w t payload web ->
  getInput w "channel-id" <> "" ->
  getInput w "slack-message" <> "" \/ ToBoolean payload = true ->
  let calls :=
    map (chatCall (getInput w "update-ts") (getInput w "slack-message") payload)
      (Str.split "," (getInput w "channel-id")) in
  settle_order (settle_picks w) (map (chatPromise web) calls)
  = (fulfilled ++ Rejected reason :: later)%list ->
  Forall (fun s => exists response, s = Fulfilled response) fulfilled ->
  slackSend w = (t ++ calls ++ [SetFailed (FailError reason)])%list.
Proof.
  intros Hrun Hch Hcontent calls Hsettle Hfulfilled.
  rewrite (slackSend_token w t payload web Hrun).
  destruct Hrun as (_ & Hres & Hweb).
  rewrite (sendWithToken_checked w _ payload web Hweb Hch Hcontent).
  rewrite fanOut_eq. fold calls. rewrite Hsettle.
  rewrite (await_all_rejected fulfilled later reason None Hfulfilled).
  reflexivity.
Qed.

(** X12. Past the two checks the number of chat calls is one more than the
    number of commas of the channel input, whatever lies between the commas:
    a trailing or a doubled comma gives a call of its own. *)
Theorem one_call_more_than_commas w t payload web :
  tokenTransport w t payload web ->
  getInput w "channel-id" <> "" ->
  getInput w "slack-message" <> "" \/ ToBoolean payload = true ->
  exists calls rest,
    slackSend w = (t ++ calls ++ rest)%list
    /\ List.length calls = S (Str.count "," (getInput w "channel-id"))
    /\ Forall (fun e => is_chat e = true) calls
    /\ Forall (fun e => is_chat e = false) t
    /\ Forall (fun e => is_chat e = false) rest.
Proof.
  intros Hrun Hch Hcontent.
  rewrite (slackSend_token w t payload web Hrun).
  destruct Hrun as (_ & Hres & Hweb).
  rewrite (sendWithToken_checked w _ payload web Hweb Hch Hcontent).
  destruct (finish_checked w web (getInput w "update-ts")
              (getInput w "slack-message") payload (getInput w "channel-id"))
    as (rest & -> & Hrest).
  eexists _, rest. split; [reflexivity|]. split; [|split; [|split]].
  - now rewrite length_map, StrFacts.split_length.
  - apply Forall_map, Forall_forall. intros channelId _.
    unfold chatCall. destruct (Str.truthy _); reflexivity.
  - destruct (resolvePayload_normal w t payload Hres) as [->| ->];
      repeat constructor.
  - eapply Forall_impl; [|exact Hrest]. intros e He.
    destruct e; simpl in *; congruence.
Qed.

(** X13. The token transport never falls back on the payload of the event:
    with a message and no payload, each call carries the channel and the
    text only, and the timestamp for an update. *)
Theorem message_only_calls w t payload web :
  tokenTransport w t payload web ->
  getInput w "channel-id" <> "" ->
  getInput w "slack-message" <> "" ->
  ToBoolean payload = false ->
  exists rest,
    slackSend w
    = (t ++ map (fun channelId =>
                   if Str.truthy (getInput w "update-ts")
                   then ChatUpdate
                          [("ts", VStr (getInput w "update-ts"));
                           ("channel", VStr (Str.trim channelId));
                           ("text", VStr (getInput w "slack-message"))]
                   else ChatPostMessage
                          [("channel", VStr (Str.trim channelId));
                           ("text", VStr (getInput w "slack-message"))])
              (Str.split "," (getInput w "channel-id"))
         ++ rest)%list
    /\ Forall (fun e => is_chat e = false) rest.
Proof.
  intros Hrun Hch Hmsg Hfalsy.
  rewrite (slackSend_token w t payload web Hrun).
  destruct Hrun as (_ & Hres & Hweb).
  rewrite (sendWithToken_checked w _ payload web Hweb Hch (or_introl Hmsg)).
  destruct (finish_checked w web (getInput w "update-ts")
              (getInput w "slack-message") payload (getInput w "channel-id"))
    as (rest & -> & Hrest).
  exists rest. split.
  - f_equal. f_equal. apply map_ext. intros channelId.
    unfold chatCall, chatArguments, or_empty. rewrite Hfalsy.
    destruct (Str.truthy (getInput w "update-ts")); reflexivity.
  - eapply Forall_impl; [|exact Hrest]. intros e He.
    destruct e; simpl in *; congruence.
Qed.

(** X17. When the POST is fulfilled, the run ends with the time output right
    after it, and nothing but console lines and the file read came before:
    the response of the webhook is not looked at and gives no output. *)
Theorem fulfilled_post_ends_with_time w (url : string) (posted : value number)
    (opts : AxiosOpts) :
  In (AxiosPost url posted opts) (slackSend w) ->
  axios_post w url posted opts = None ->
  exists before,
    slackSend w
    = (before ++ [AxiosPost url posted opts;
                  SetOutput "time" (toTimeString w)])%list
    /\ Forall (fun e => is_local e = true) before.
Proof.
  intros Hin Hdone.
  destruct (slackSend_posted w url posted opts Hin) as (payload & logs & -> & Hlogs & _).
  pose proof (post_eq w url posted opts) as Hpost. rewrite Hdone in Hpost.
  rewrite Hpost. unfold finish. cbn [fst snd].
  exists (fst (resolvePayload w) ++ logs)%list. split.
  - rewrite <- !app_assoc. reflexivity.
  - apply Forall_app. split; [exact (resolvePayload_local w)|].
    eapply Forall_impl; [|exact Hlogs]. intros e He. destruct e; discriminate || reflexivity.
Qed.

(** X18. Without a bot token and with a webhook URL, a run whose payload is
    resolved posts exactly once, to that URL: there is no retry and no
    second request. Unless the type is WORKFLOW_TRIGGER the body is the
    resolved payload untouched, or the payload of the event when the
    resolved one is absent or falsy. *)
Theorem webhook_posts_once w t payload (url : string) :
  env w "SLACK_BOT_TOKEN" = None \/ env w "SLACK_BOT_TOKEN" = Some "" ->
  env w "SLACK_WEBHOOK_URL" = Some url -> url <> "" ->
  resolvePayload w = (t, Normal payload) ->
  exists logs posted opts rest,
    slackSend w = (t ++ logs ++ AxiosPost url posted opts :: rest)%list
    /\ Forall (fun e => is_delivery e = false) t
    /\ Forall (fun e => is_delivery e = false) logs
    /\ Forall (fun e => is_delivery e = false) rest
    /\ (webhookType w <> SLACK_WEBHOOK_TYPES.WORKFLOW_TRIGGER ->
        posted = webhookSource w payload).
Proof.
  intros Htoken Henv Hne Hres.
  pose proof (present_none _ Htoken) as Htok.
  pose proof (present_some _ _ Henv Hne) as Hurl.
  rewrite (slackSend_resolved w t payload); [|
    apply credentials_present; now right | exact Hres].
  destruct (finish_webhook w payload Htok Hurl)
    as (logs & posted & opts & logs' & last & -> & Hlogs & Hlogs' & Hlast & Hshape).
  rewrite Henv. cbn [defined].
  exists logs, posted, opts, (logs' ++ [last])%list.
  split; [reflexivity|]. split; [|split; [|split]].
  - destruct (resolvePayload_normal w t payload Hres) as [->| ->];
      repeat constructor.
  - eapply Forall_impl; [|exact Hlogs]. intros e He. destruct e; discriminate || reflexivity.
  - apply Forall_app. split.
    + eapply Forall_impl; [|exact Hlogs']. intros e He.
      destruct e; discriminate || reflexivity.
    + repeat constructor. destruct last; discriminate || reflexivity.
  - intros Hother. destruct Hshape as (shaping & Hshape).
    destruct (defaultPayload_eq w payload) as (logs0 & shown & Hdef & _ & _ & Hshown).
    rewrite Hdef, bind_normal in Hshape. unfold shapePayload in Hshape.
    apply String.eqb_neq in Hother. rewrite Hother in Hshape.
    cbn in Hshape. inversion Hshape. subst. reflexivity.
Qed.

(** X20. Setting up the proxy never fails the run. A tunnelling agent is used,
    with the proxy detection of axios switched off, exactly when the webhook
    URL has the scheme https, a proxy is configured (HTTPS_PROXY, else
    https_proxy), that proxy has the scheme http and the agent can be
    created; in every other case, also when a URL cannot be parsed or the
    agent cannot be created, the default options are used. *)
Theorem proxy_setup_never_fails w (webhookUrl : string) :
  exists logs opts,
    configureProxy w webhookUrl = (logs, Normal opts)
    /\ Forall (fun e => is_log e = true) logs
    /\ (forall agent,
          opts = {| httpsAgent := Some agent; proxy := Some false |}
          <-> parseURL w webhookUrl = Some "https"
              /\ httpsProxy w <> ""
              /\ parseURL w (httpsProxy w) = Some "http"
              /\ HttpsProxyAgent w (httpsProxy w) = Ok agent)
    /\ (opts = noOpts \/ exists agent,
           opts = {| httpsAgent := Some agent; proxy := Some false |}).
Proof.
  unfold configureProxy, scheme. fold (httpsProxy w).
  destruct (parseURL w webhookUrl) as [urlScheme|] eqn:Hurl.
  2:{ eexists _, _. split; [reflexivity|]. split; [repeat constructor|].
      split; [|now left]. intros agent. split; [discriminate|].
      intros (H & _). discriminate H. }
  rewrite bind_ret.
  destruct (String.eqb_spec urlScheme "https") as [->|Hscheme].
  2:{ eexists _, _. split; [reflexivity|]. split; [repeat constructor|].
      split; [|now left]. intros agent. split; [discriminate|].
      intros (H & _). congruence. }
  cbv zeta. destruct (Str.truthy (httpsProxy w)) eqn:Hproxy.
  2:{ eexists _, _. split; [reflexivity|]. split; [repeat constructor|].
      split; [|now left]. intros agent. split; [discriminate|].
      intros (_ & H & _). apply StrFacts.truthy_true in H. congruence. }
  destruct (parseURL w (httpsProxy w)) as [proxyScheme|] eqn:Hparse.
  2:{ eexists _, _. split; [reflexivity|]. split; [repeat constructor|].
      split; [|now left]. intros agent. split; [discriminate|].
      intros (_ & _ & H & _). discriminate H. }
  rewrite bind_ret.
  destruct (String.eqb_spec proxyScheme "http") as [->|Hscheme].
  2:{ eexists _, _. split; [reflexivity|]. split; [repeat constructor|].
      split; [|now left]. intros agent. split; [discriminate|].
      intros (_ & _ & H & _). congruence. }
  destruct (HttpsProxyAgent w (httpsProxy w)) as [made|e] eqn:Hagent.
  - eexists _, _. split; [reflexivity|]. split; [constructor|].
    split; [|right; eexists; reflexivity].
    intros agent. split.
    + intros H. inversion H; subst. repeat split; auto.
      now apply StrFacts.truthy_true.
    + intros (_ & _ & _ & H). now inversion H.
  - eexists _, _. split; [reflexivity|]. split; [repeat constructor|].
    split; [|now left]. intros agent. split; [discriminate|].
    intros (_ & _ & _ & H). discriminate H.
Qed.

(** X14. The operations of one run are all of one kind, chosen by update-ts: a
    run updates only when update-ts is given and posts only when it is
    not, so it never mixes updates and posts. *)
Theorem operations_follow_update_ts w :
  (forall args, In (ChatUpdate args) (slackSend w) ->
                getInput w "update-ts" <> "")
  /\ (forall args, In (ChatPostMessage args) (slackSend w) ->
                   getInput w "update-ts" = "").
Proof.
  split; intros args Hin;
    destruct (slackSend_chat w _ Hin eq_refl) as (payload & channelId & _ & _ & Heq);
    unfold chatCall in Heq;
    destruct (Str.truthy (getInput w "update-ts")) eqn:Hts; try discriminate Heq.
  - now apply StrFacts.truthy_true.
  - destruct (getInput w "update-ts"); [reflexivity|discriminate Hts].
Qed.

(** X15. The fields of the payload are spread last, so a payload with a field
    channel sends every operation to that channel, whatever the entries of
    the channel input are; the entries only decide how many operations
    there are. *)
Theorem payload_channel_replaces_the_entries w t payload web (c : value number) :
  tokenTransport w t payload web ->
  ToBoolean payload = true ->
  obj_get "channel" (rev (own_entries payload)) = Some c ->
  forall args,
    In (ChatUpdate args) (slackSend w) \/ In (ChatPostMessage args) (slackSend w) ->
    obj_get "channel" args = Some c.
Proof.
  intros (_ & Hres & _) Htruthy Hfield args Hin.
  assert (Hargs : exists channelId,
             args = chatArguments (getInput w "update-ts") channelId
                      (getInput w "slack-message") payload).
  { destruct Hin as [Hin|Hin];
      destruct (slackSend_chat w _ Hin eq_refl)
        as (payload' & channelId & Hres' & _ & Heq);
      rewrite Hres in Hres'; cbn [snd] in Hres'; inversion Hres'; subst payload';
      exists channelId; unfold chatCall in Heq;
      destruct (Str.truthy (getInput w "update-ts")); congruence. }
  destruct Hargs as (channelId & ->). unfold chatArguments.
  assert (Hor : or_empty payload = payload) by (unfold or_empty; now rewrite Htruthy).
  rewrite Hor.
  destruct (Str.truthy (getInput w "update-ts")); rewrite obj_get_spread, Hfield;
    reflexivity.
Qed.

(** X22. The loop that stringifies the values (lines 117-119) keeps the keys and
    their order, and running it again changes nothing. *)
Theorem stringify_values_idempotent (fp : obj number) :
  NoDup (keys fp) ->
  keys (stringify_values fp) = keys fp
  /\ stringify_values (stringify_values fp) = stringify_values fp.
Proof.
  intros Hnd. rewrite (stringify_values_map fp Hnd).
  assert (Hkeys : keys (number := number)
                    (map (fun kv : string * value number =>
                              (fst kv, VStr (ToString (snd kv)))) fp)
                  = keys fp).
  { unfold keys. rewrite map_map. reflexivity. }
  split; [exact Hkeys|].
  rewrite stringify_values_map by (now rewrite Hkeys).
  rewrite map_map. reflexivity.
Qed.

(** X23. For a payload that is flat already, an object with distinct keys and
    no non-empty object or array among its values, the shaping for
    WORKFLOW_TRIGGER changes no key: under every key the result has the
    string of the value the payload has there. *)
Theorem flat_payload_is_only_stringified (props : obj number) :
  NoDup (keys props) ->
  Forall (fun kv => isobject (snd kv) && has_keys (snd kv) = false) props ->
  exists flat,
    shapePayload SLACK_WEBHOOK_TYPES.WORKFLOW_TRIGGER (VObj props)
    = ret (VObj flat)
    /\ NoDup (keys flat)
    /\ forall k, obj_get k flat
                 = option_map (fun x => VStr (ToString x)) (obj_get k props).
Proof.
  intros Hnd Hflat.
  assert (Hleaves : flat_entries "" (VObj props) = props).
  { clear Hnd. unfold flat_entries.
    induction Hflat as [|[k x] props Hx _ IH]; [reflexivity|].
    cbn [snd] in Hx. cbn [leaves] in *. rewrite Hx.
    cbn [app map fst snd]. rewrite IH. reflexivity. }
  assert (Hflatten : flatten (VObj props) = Some (assign_all props []))
    by (unfold flatten; now rewrite step_flat_entries, Hleaves).
  exists (stringify_values (assign_all props [])). split; [|split].
  - unfold shapePayload. rewrite Hflatten. reflexivity.
  - destruct (flatten_stringify _ _ Hflatten) as [Hdistinct _]. exact Hdistinct.
  - intros k. pose proof (flatten_NoDup _ _ Hflatten) as Hnd0.
    rewrite (stringify_values_map _ Hnd0),
      (obj_get_map (fun y => VStr (ToString y))), obj_get_assign_all.
    rewrite (obj_get_rev k props Hnd). simpl.
    destruct (obj_get k props); reflexivity.
Qed.

(** X7. Without the substitution flag the text of the payload file is parsed
    as it was read: no marker is rewritten and the renderer is not used. A
    non-empty text that is not valid JSON fails the run on the JSON; an
    empty text stands for an absent payload. *)
Theorem file_without_flag_is_parsed_verbatim w (text : string) :
  present (env w "SLACK_BOT_TOKEN") = true
  \/ present (env w "SLACK_WEBHOOK_URL") = true ->
  getInput w "payload" = "" ->
  getInput w "payload-file-path" <> "" ->
  getBooleanInput w "payload-file-path-parsed" = Ok false ->
  readFile w (getInput w "payload-file-path") = Ok text ->
  match text, JSON_parse w text with
  | "", _ =>
      resolvePayload w
      = ([ReadFile (getInput w "payload-file-path")], Normal (VStr ""))
  | _, Some parsed =>
      resolvePayload w
      = ([ReadFile (getInput w "payload-file-path")], Normal parsed)
  | _, None =>
      slackSend w
      = [ReadFile (getInput w "payload-file-path");
         ConsoleError [LStr Msg.invalid_json_log];
         SetFailed (FailError (Error Msg.invalid_json))]
  end.
Proof.
  intros Hcred Hinline Hpath Hflag Hread.
  apply credentials_present in Hcred. apply StrFacts.truthy_true in Hpath.
  assert (Hres : resolvePayload w
                 = ((ReadFile (getInput w "payload-file-path")
                     :: fst (parsePayload w text))%list,
                    snd (parsePayload w text))).
  { unfold resolvePayload, loadPayloadFile.
    rewrite Hflag, Hinline, Hpath. cbn [lift Str.truthy negb andb].
    rewrite bind_ret, Hread. cbn [lift]. rewrite bind_emit, bind_ret.
    cbn [ret fst snd try_catch]. rewrite bind_normal. reflexivity. }
  destruct text as [|c text]; [exact Hres|].
  unfold parsePayload in Hres. cbn [Str.truthy] in Hres.
  destruct (JSON_parse w (String c text)) as [parsed|]; [exact Hres|].
  unfold slackSend, body. rewrite Hcred. cbn [when]. rewrite bind_ret, Hres.
  reflexivity.
Qed.

(** X19. The webhook transport reads three inputs only: payload,
    payload-file-path and the flag payload-file-path-parsed. Without a bot
    token the message text, the channels, update-ts and every other input
    have no effect on the run. *)
Theorem webhook_ignores_the_message_inputs w (inputs : string -> string)
    (flags : string -> result bool) :
  env w "SLACK_BOT_TOKEN" = None \/ env w "SLACK_BOT_TOKEN" = Some "" ->
  inputs "payload" = getInput w "payload" ->
  inputs "payload-file-path" = getInput w "payload-file-path" ->
  flags "payload-file-path-parsed" = getBooleanInput w "payload-file-path-parsed" ->
  slackSend (with_inputs w inputs flags) = slackSend w.
Proof.
  intros Htoken Hpayload Hpath Hflag. pose proof (present_none _ Htoken) as Htok.
  assert (Hres : resolvePayload (with_inputs w inputs flags) = resolvePayload w).
  { unfold resolvePayload. cbn [getInput getBooleanInput with_inputs].
    rewrite Hpayload, Hpath, Hflag. reflexivity. }
  assert (Hdeliver : forall payload,
             deliver (with_inputs w inputs flags) payload = deliver w payload).
  { intros payload. unfold deliver. cbn [env with_inputs]. rewrite Htok.
    reflexivity. }
  unfold slackSend, body. cbn [env with_inputs toTimeString].
  rewrite Hres.
  destruct (absent (env w "SLACK_BOT_TOKEN") && absent (env w "SLACK_WEBHOOK_URL"));
    [reflexivity|].
  cbn [when]. rewrite !bind_ret.
  destruct (resolvePayload w) as [t [payload|e|]]; [|reflexivity|reflexivity].
  rewrite !bind_normal, Hdeliver. reflexivity.
Qed.

(** X11. With several channels the outputs describe one message only, the one
    whose response settles last. Whichever operation it is: for every
    operation that is fulfilled with ok set there is an order of settling in
    which the run reports that operation, the calls being the same. *)
Theorem any_fulfilled_response_can_be_reported w t payload web (r : WebResponse) :
  tokenTransport w t payload web ->
  getInput w "channel-id" <> "" ->
  getInput w "slack-message" <> "" \/ ToBoolean payload = true ->
  let calls :=
    map (chatCall (getInput w "update-ts") (getInput w "slack-message") payload)
      (Str.split "," (getInput w "channel-id")) in
  Forall (fun call => exists response, chatPromise web call = Fulfilled response)
    calls ->
  In (Fulfilled (Some r)) (map (chatPromise web) calls) ->
  resp_ok r = true ->
  exists picks,
    slackSend (with_picks w picks)
    = (t ++ calls
         ++ [SetOutput "ts" (resp_ts r);
             SetOutput "thread_ts"
               (match resp_thread_ts r with
                | Some thread => if Str.truthy thread then thread else resp_ts r
                | None => resp_ts r
                end);
             SetOutput "channel_id" (resp_channel r);
             SetOutput "time" (toTimeString w)])%list.
Proof.
  intros Hrun Hch Hcontent calls Hall Hin Hok.
  apply in_split in Hin as (l1 & l2 & Hsplit).
  assert (Hperm : Permutation (map (chatPromise web) calls)
                    ((l1 ++ l2) ++ [Fulfilled (Some r)])%list).
  { rewrite Hsplit. etransitivity; [symmetry; apply Permutation_middle|].
    apply Permutation_cons_append. }
  destruct (settle_order_complete _ _ Hperm) as (picks & Hpicks).
  exists picks.
  assert (Hrun' : tokenTransport (with_picks w picks) t payload web) by exact Hrun.
  rewrite (slackSend_token _ t payload web Hrun').
  destruct Hrun' as (_ & _ & Hweb).
  rewrite (sendWithToken_checked _ _ payload web Hweb Hch Hcontent).
  rewrite fanOut_eq. cbn [getInput settle_picks with_picks]. fold calls.
  rewrite Hpicks.
  rewrite (await_all_fulfilled _ None (Some r)).
  - cbn [ret snd]. rewrite bind_normal. unfold finish.
    cbn [reportResponse]. rewrite Hok. cbn. now rewrite <- app_assoc.
  - eapply Permutation_Forall; [exact Hperm|]. now apply Forall_map.
  - apply last_last.
Qed.

End Further.

(* ===================================================================== *)
(** ** The further properties on the sample worlds *)
(* ===================================================================== *)

(** With both credentials the message goes through the token. *)
Lemma token_transport_never_posts_run :
  env Sample.both_credentials "SLACK_WEBHOOK_URL"
  = Some "https://hooks.slack.com/workflows/T0"
  /\ Forall (fun e => is_post e = false) (slackSend Sample.both_credentials).
Proof.
  split; [reflexivity|].
  apply (token_transport_never_posts Sample.both_credentials "xoxb-1").
  - reflexivity.
  - discriminate.
Defined.

Lemma webhook_transport_never_chats_run :
  Forall (fun e => is_chat e = false /\ is_message_output e = false)
    (slackSend Sample.event_payload).
Proof.
  apply (webhook_transport_never_chats Sample.event_payload). left. reflexivity.
Defined.

Lemma inline_payload_wins_run :
  getInput Sample.inline_and_file "payload-file-path" = "payload.json"
  /\ Forall (fun e => is_read e = false) (slackSend Sample.inline_and_file).
Proof.
  split; [reflexivity|].
  apply (inline_payload_wins Sample.inline_and_file). discriminate.
Defined.

Lemma unloadable_file_fails_with_the_path_run :
  slackSend Sample.missing_file
  = [ReadFile "missing.json";
     ConsoleError
       [LErr (Error "ENOENT: no such file or directory, open missing.json")];
     SetFailed (FailError (Error (Msg.bad_file "missing.json")))].
Proof.
  apply (unloadable_file_fails_with_the_path Sample.missing_file false
           (Error "ENOENT: no such file or directory, open missing.json")).
  - left. reflexivity.
  - reflexivity.
  - discriminate.
  - reflexivity.
  - left. reflexivity.
Defined.

Lemma invalid_inline_payload_fails_run :
  slackSend Sample.invalid_inline
  = [ConsoleError [LStr Msg.invalid_json_log];
     SetFailed (FailError (Error Msg.invalid_json))].
Proof.
  apply (invalid_inline_payload_fails Sample.invalid_inline false).
  - left. reflexivity.
  - reflexivity.
  - discriminate.
  - reflexivity.
Defined.

Lemma malformed_flag_fails_first_run :
  exists error, slackSend Sample.no_flag = [SetFailed (FailError error)].
Proof.
  eexists.
  apply (malformed_flag_fails_first Sample.no_flag).
  - left. reflexivity.
  - reflexivity.
Defined.

Lemma client_failure_fails_the_run_run :
  slackSend Sample.client_failure = [SetFailed (FailError (Error "Invalid URL"))].
Proof.
  apply (client_failure_fails_the_run Sample.client_failure [] (VStr "") "xoxb-1"
           (Error "Invalid URL")).
  - reflexivity.
  - discriminate.
  - reflexivity.
  - reflexivity.
Defined.

(** An update in a thread: thread_ts is the thread, not the message. *)
Lemma successful_response_sets_the_outputs_run :
  slackSend Sample.thread_update
  = [ChatUpdate [("ts", VStr "1.1"); ("channel", VStr "C1");
                 ("text", VStr "hello")];
     SetOutput "ts" "1.1"; SetOutput "thread_ts" "0.9";
     SetOutput "channel_id" "C1";
     SetOutput "time" (toTimeString Sample.thread_update)].
Proof.
  apply (successful_response_sets_the_outputs Sample.thread_update [] (VStr "")
           (Sample.client [("C1", Sample.in_thread "C1" "1.1" "0.9")])
           {| resp_ok := true; resp_ts := "1.1"; resp_thread_ts := Some "0.9";
              resp_channel := "C1" |}).
  - repeat split; reflexivity.
  - discriminate.
  - left. discriminate.
  - repeat constructor. eexists. reflexivity.
  - reflexivity.
  - reflexivity.
Defined.

(** The second channel is refused: both posts were issued, the run fails,
    and the outputs of the first post are not set. *)
Lemma rejected_operation_fails_the_run_run :
  slackSend Sample.one_rejected
  = [ChatPostMessage [("channel", VStr "C1"); ("text", VStr "hello")];
     ChatPostMessage [("channel", VStr "C2"); ("text", VStr "hello")];
     SetFailed (FailError (Error "An API error occurred: channel_not_found"))].
Proof.
  apply (rejected_operation_fails_the_run Sample.one_rejected [] (VStr "")
           (Sample.client
              [("C1", Sample.sent "C1" "1.1");
               ("C2", Rejected (Error "An API error occurred: channel_not_found"))])
           [Sample.sent "C1" "1.1"] []
           (Error "An API error occurred: channel_not_found")).
  - repeat split; reflexivity.
  - discriminate.
  - left. discriminate.
  - reflexivity.
  - repeat constructor. eexists. reflexivity.
Defined.

Lemma one_call_more_than_commas_run :
  exists calls rest,
    slackSend Sample.comma_channel = (calls ++ rest)%list
    /\ List.length calls = 2
    /\ Forall (fun e => is_chat e = true) calls
    /\ Forall (fun e => is_chat e = false) rest.
Proof.
  destruct (one_call_more_than_commas Sample.comma_channel [] (VStr "")
              (Sample.client []))
    as (calls & rest & Heq & Hlen & Hcalls & _ & Hrest).
  - repeat split; reflexivity.
  - discriminate.
  - left. discriminate.
  - exists calls, rest. auto.
Defined.

Lemma message_only_calls_run :
  exists rest,
    slackSend Sample.refused_post
    = (ChatPostMessage [("channel", VStr "C1"); ("text", VStr "hello")] :: rest)%list
    /\ Forall (fun e => is_chat e = false) rest.
Proof.
  destruct (message_only_calls Sample.refused_post [] (VStr "")
              (Sample.client [("C1", Sample.refused "C1")]))
    as (rest & Heq & Hrest).
  - repeat split; reflexivity.
  - discriminate.
  - discriminate.
  - reflexivity.
  - exists rest. auto.
Defined.

(** Behind a proxy: the POST goes through the tunnel and the run ends with
    the time output. *)
Lemma fulfilled_post_ends_with_time_run :
  exists before,
    slackSend Sample.behind_proxy
    = (before
       ++ [AxiosPost "https://hooks.slack.com/workflows/T0"
             (VObj [("ref", VStr "main")])
             {| httpsAgent := Some {| agent_proxy := "http://proxy.local:3128" |};
                proxy := Some false |};
           SetOutput "time" (toTimeString Sample.behind_proxy)])%list
    /\ Forall (fun e => is_local e = true) before.
Proof.
  apply (fulfilled_post_ends_with_time Sample.behind_proxy).
  - right. left. reflexivity.
  - reflexivity.
Defined.

(** An unknown type: the payload of the event is posted as it is. *)
Lemma webhook_posts_once_run :
  exists logs posted opts rest,
    slackSend Sample.foo_type
    = (logs ++ AxiosPost "https://hooks.slack.com/services/T0" posted opts
         :: rest)%list
    /\ Forall (fun e => is_delivery e = false) logs
    /\ Forall (fun e => is_delivery e = false) rest
    /\ posted = VObj [("ref", VStr "main")].
Proof.
  destruct (webhook_posts_once Sample.foo_type [] (VStr "")
              "https://hooks.slack.com/services/T0")
    as (logs & posted & opts & rest & Heq & _ & Hlogs & Hrest & Hposted).
  - left. reflexivity.
  - reflexivity.
  - discriminate.
  - reflexivity.
  - exists logs, posted, opts, rest. repeat split; auto.
    apply Hposted. discriminate.
Defined.

(** The payload names the channel C9: both posts go there. *)
Lemma payload_channel_replaces_the_entries_run :
  getInput Sample.channel_payload "channel-id" = "C1,C2"
  /\ forall args,
       In (ChatUpdate args) (slackSend Sample.channel_payload)
       \/ In (ChatPostMessage args) (slackSend Sample.channel_payload) ->
       obj_get "channel" args = Some (VStr "C9").
Proof.
  split; [reflexivity|].
  apply (payload_channel_replaces_the_entries Sample.channel_payload []
           (VObj [("channel", VStr "C9"); ("text", VStr "hi")])
           (Sample.client [])).
  - repeat split; reflexivity.
  - reflexivity.
  - reflexivity.
Defined.

Lemma flat_object_keys_distinct : NoDup (keys Sample.flat_object).
Proof.
  repeat constructor; simpl; intuition discriminate.
Defined.

Lemma stringify_values_idempotent_run :
  keys (stringify_values Sample.flat_object) = keys Sample.flat_object
  /\ stringify_values (stringify_values Sample.flat_object)
     = stringify_values Sample.flat_object.
Proof.
  apply (stringify_values_idempotent Sample.flat_object).
  exact flat_object_keys_distinct.
Defined.

Lemma flat_payload_is_only_stringified_run :
  exists flat,
    shapePayload SLACK_WEBHOOK_TYPES.WORKFLOW_TRIGGER (VObj Sample.flat_object)
    = ret (VObj flat)
    /\ NoDup (keys flat)
    /\ forall k, obj_get k flat
                 = option_map (fun x => VStr (ToString x))
                     (obj_get k Sample.flat_object).
Proof.
  apply (flat_payload_is_only_stringified Sample.flat_object).
  - exact flat_object_keys_distinct.
  - repeat constructor.
Defined.

(** Without the flag the marker stays in the text, which is not JSON. *)
Lemma file_without_flag_is_parsed_verbatim_run :
  slackSend Sample.raw_file
  = [ReadFile "payload.json";
     ConsoleError [LStr Msg.invalid_json_log];
     SetFailed (FailError (Error Msg.invalid_json))].
Proof.
  apply (file_without_flag_is_parsed_verbatim Sample.raw_file "${{ github.ref }}").
  - left. reflexivity.
  - reflexivity.
  - discriminate.
  - reflexivity.
  - reflexivity.
Defined.

(** A message, a channel and a timestamp given to the webhook transport
    change nothing. *)
Lemma webhook_ignores_the_message_inputs_run :
  let given :=
    ("slack-message", "hello") :: ("channel-id", "C1") :: ("update-ts", "1.1")
      :: Sample.flag_off in
  let inputs name := defined (Sample.lookup given name) in
  inputs "channel-id" = "C1"
  /\ slackSend (with_inputs Sample.event_payload inputs (Sample.booleanInput given))
     = slackSend Sample.event_payload.
Proof.
  intros given inputs. split; [reflexivity|].
  apply (webhook_ignores_the_message_inputs Sample.event_payload inputs
           (Sample.booleanInput given)).
  - left. reflexivity.
  - reflexivity.
  - reflexivity.
  - reflexivity.
Defined.

(** Scenario A again: in some order of settling the outputs are those of
    the second channel. *)
Lemma any_fulfilled_response_can_be_reported_run :
  exists picks,
    slackSend (with_picks Sample.two_channels picks)
    = [ChatPostMessage [("channel", VStr "C1"); ("text", VStr "hi")];
       ChatPostMessage [("channel", VStr "C2"); ("text", VStr "hi")];
       SetOutput "ts" "2.2"; SetOutput "thread_ts" "2.2";
       SetOutput "channel_id" "C2";
       SetOutput "time" (toTimeString Sample.two_channels)].
Proof.
  apply (any_fulfilled_response_can_be_reported Sample.two_channels []
           (VObj [("text", VStr "hi")])
           (Sample.client [("C1", Sample.sent "C1" "1.1");
                           ("C2", Sample.sent "C2" "2.2")])
           {| resp_ok := true; resp_ts := "2.2"; resp_thread_ts := None;
              resp_channel := "C2" |}).
  - repeat split; reflexivity.
  - discriminate.
  - right. reflexivity.
  - repeat constructor; eexists; reflexivity.
  - right. left. reflexivity.
  - reflexivity.
Defined.
